(** * Cognito provisioning scripts: a shallow embedding and its properties

    Two scripts are embedded:
    - [04-LearningPath/m2m_cognito_setup.py]  (module [M2M]),
    - [04-LearningPath/user_cognito_setup.py] (module [UserPool]).

    Both are straight-line sequences of calls to the identity provider with
    Python exception handling around them.  The embedding keeps what the
    scripts can observe and change:
    - the provider is an oracle answering each request, possibly depending
      on the requests answered before (it is a remote, stateful service);
    - every request and its outcome is recorded in a trace;
    - [print] appends a line to the standard output, which is taken to
      accept every line;
    - [boto3.client] builds a client or raises, as the process finds its
      configuration;
    - [open(name, 'w')] opens the file or raises, as the working
      directory allows; [json.dump] then replaces the file's content;
    - exceptions are values of [exn]; a computation returns a result or an
      exception, and keeps the effects done before the exception. *)

From Stdlib Require Import String Ascii ZArith List Bool.
From Stdlib Require Import DecimalString.
From stdpp Require Import base option strings gmap.
Import ListNotations.

Local Open Scope string_scope.
Local Open Scope Z_scope.

(** ** Python values, exceptions, and the effects of the scripts *)

Module Py.

(** The values the scripts handle: what a provider response (a dict decoded
    by the SDK) can contain.  [VObj] stands for any object that is not a
    JSON value, such as the [datetime] stamps of a pool description; it
    carries its class name and what [str()] gives for it. *)
#[warnings="-register-all"]
Inductive pyval : Type :=
| VNone
| VBool (b : bool)
| VInt (z : Z)
| VStr (s : string)
| VList (l : list pyval)
| VDict (d : list (string * pyval))
| VObj (cls : string) (shown : string).

(** The exceptions that can occur.  [ClientError] is the provider's
    structured error: [e.response['Error']['Code']] and
    [e.response['Error']['Message']].  [OtherError] is any other subclass of
    [Exception] the SDK may raise (transport, credentials, validation). *)
Inductive exn : Type :=
| ClientError (code message : string)
| KeyError (key : string)
| TypeError (msg : string)
| NameError (name : string)
| OtherError (cls msg : string).

Inductive result (A : Type) : Type :=
| Ok (a : A)
| Err (e : exn).
Arguments Ok {A} a.
Arguments Err {A} e.

(** A provider request: the client it is sent through, the method called
    and its keyword arguments. *)
Record client : Type := Client { service_name : string; region_name : pyval }.

Record request : Type := Request {
  via : client;
  op : string;
  kwargs : list (string * pyval)
}.

(** The trace of a run, oldest request first. *)
Definition trace : Type := list (request * result pyval).

(** What [open(name, 'w')] and [json.dump] leave in a file: the document
    written, or a truncated file when serialisation raised half-way. *)
Inductive file_content : Type :=
| Json (doc : pyval)
| Truncated.

Record world : Type := World {
  calls : trace;
  stdout : list string;
  files : gmap string file_content
}.

(** What the process finds when it starts. *)
Record environment : Type := Environment {
  environ : gmap string string;                 (* os.environ *)
  session_region : result (option string);      (* boto3.Session().region_name *)
  unix_time : Z;                                (* int(time.time()) *)
  make_client : client -> result unit;          (* boto3.client(...): built, or raises *)
  open_w : string -> result unit;               (* open(name, 'w'): opened, or raises *)
  provider : trace -> request -> result pyval   (* the identity provider *)
}.

(** A process starts with nothing printed and no request sent; the working
    directory holds whatever files it holds. *)
Definition start (fs : gmap string file_content) : world :=
  {| calls := []; stdout := []; files := fs |}.

(** Two built-ins of the interpreter are taken as they are: [repr()] of a
    list or a dict, and [str()] of an exception.  The scripts only use them
    to build messages. *)
Class Builtins : Type := {
  container_repr : pyval -> string;
  exn_str : exn -> string
}.

(** *** The monad: state that survives exceptions *)

Definition M (A : Type) : Type := world -> result A * world.

Definition ret {A} (a : A) : M A := fun w => (Ok a, w).

Definition raise {A} (e : exn) : M A := fun w => (Err e, w).

Definition bind {A B} (m : M A) (k : A -> M B) : M B :=
  fun w =>
    match m w with
    | (Ok a, w') => k a w'
    | (Err e, w') => (Err e, w')
    end.

(** [try: body except ...: handler e]; a handler that does not match the
    exception re-raises it. *)
Definition try_except {A} (body : M A) (handler : exn -> M A) : M A :=
  fun w =>
    match body w with
    | (Ok a, w') => (Ok a, w')
    | (Err e, w') => handler e w'
    end.

Definition lift {A} (r : result A) : M A := fun w => (r, w).

End Py.

Export Py.

Declare Scope py_scope.
Delimit Scope py_scope with py.
Notation "x <- m ;; k" := (bind m (fun x => k))
  (at level 100, m at next level, right associativity) : py_scope.
Notation "m ;; k" := (bind m (fun _ => k))
  (at level 100, right associativity) : py_scope.
Local Open Scope py_scope.

Module PyOps.

(** [print(line)] *)
Definition print (line : string) : M unit :=
  fun w => (Ok tt, {| calls := calls w; stdout := (stdout w ++ [line])%list; files := files w |}).

(** [d[key]] *)
Fixpoint assoc (key : string) (d : list (string * pyval)) : option pyval :=
  match d with
  | [] => None
  | (k, v) :: d' => if String.eqb k key then Some v else assoc key d'
  end.

Definition getitem (v : pyval) (key : string) : result pyval :=
  match v with
  | VDict d =>
      match assoc key d with
      | Some x => Ok x
      | None => Err (KeyError key)
      end
  | _ => Err (TypeError "object is not subscriptable by a string key")
  end.

(** The keyword argument [name] of a request, [None] when it was not given *)
Definition kwarg (name : string) (rq : request) : pyval :=
  match assoc name (kwargs rq) with
  | Some v => v
  | None => VNone
  end.

(** The trace with one more request and its outcome *)
Definition recorded (w : world) (rq : request) (r : result pyval) : world :=
  {| calls := (calls w ++ [(rq, r)])%list; stdout := stdout w; files := files w |}.

(** [cognito_client.method(key=value, ...)]: the provider returns a response
    or raises; either way the request and its outcome are recorded. *)
Definition api (env : environment) (c : client) (method : string)
    (kw : list (string * pyval)) : M pyval :=
  fun w =>
    let rq := {| via := c; op := method; kwargs := kw |} in
    match provider env (calls w) rq with
    | Ok response => (Ok response, recorded w rq (Ok response))
    | Err e => (Err e, recorded w rq (Err e))
    end.

(** [boto3.client(service, region_name=region)] builds a client object or
    raises (a profile that does not exist, a region name that is not
    valid); it sends nothing to the provider. *)
Definition boto3_client (env : environment) (service : string) (region : pyval) : M client :=
  let c := {| service_name := service; region_name := region |} in
  fun w =>
    match make_client env c with
    | Ok _ => (Ok c, w)
    | Err e => (Err e, w)
    end.

(** [str(i)] for an integer *)
Definition str_of_int (z : Z) : string := NilZero.string_of_int (Z.to_int z).

(** [str(v)], which is also what an f-string puts for [{v}] *)
Definition py_str `{Builtins} (v : pyval) : string :=
  match v with
  | VNone => "None"
  | VBool true => "True"
  | VBool false => "False"
  | VInt z => str_of_int z
  | VStr s => s
  | VObj _ shown => shown
  | VList _ | VDict _ => container_repr v
  end.

(** The truth value of [v], as [if v:] and [not v] take it *)
Definition truthy (v : pyval) : bool :=
  match v with
  | VNone => false
  | VBool b => b
  | VInt z => negb (z =? 0)
  | VStr s => negb (String.eqb s EmptyString)
  | VList l => negb (Nat.eqb (List.length l) 0)
  | VDict d => negb (Nat.eqb (List.length d) 0)
  | VObj _ _ => true
  end.

(** The status the interpreter exits with when the top-level code ends
    normally, or with an exception nobody caught. *)
Definition exit_status {A} (r : result A) : Z :=
  match r with
  | Ok _ => 0
  | Err _ => 1
  end.

(** A value that [json.dump] can write without a [default] hook. *)
Fixpoint serialisable (v : pyval) : bool :=
  match v with
  | VObj _ _ => false
  | VList l => forallb serialisable l
  | VDict d => forallb (fun kv => match kv with (_, x) => serialisable x end) d
  | _ => true
  end.

(** The document [json.dump(v, f, default=str)] writes: every object that
    is not a JSON value is replaced by its [str()]. *)
Fixpoint stringified `{Builtins} (v : pyval) : pyval :=
  match v with
  | VObj _ _ => VStr (py_str v)
  | VList l => VList (map stringified l)
  | VDict d => VDict (map (fun kv => match kv with (k, x) => (k, stringified x) end) d)
  | _ => v
  end.

(** [with open(name, 'w') as f:] and what is written to [f]: when the
    file cannot be opened the exception of [open] is raised and the file
    is left as it was. *)
Definition write_file (env : environment) (name : string) (c : file_content) : M unit :=
  fun w =>
    match open_w env name with
    | Ok _ => (Ok tt, {| calls := calls w; stdout := stdout w;
                         files := <[ name := c ]> (files w) |})
    | Err e => (Err e, w)
    end.

(** [with open(name, 'w') as f: json.dump(v, f, indent=2, default=str)] *)
Definition dump_default_str `{Builtins} (env : environment) (name : string) (v : pyval)
    : M unit :=
  write_file env name (Json (stringified v)).

(** [with open(name, 'w') as f: json.dump(v, f, indent=2)]: without the
    hook, an object that is not a JSON value raises [TypeError], after the
    file was opened for writing. *)
Definition dump (env : environment) (name : string) (v : pyval) : M unit :=
  if serialisable v then write_file env name (Json v)
  else (write_file env name Truncated ;;
        raise (TypeError "Object is not JSON serializable")).

(** [s * n] on strings *)
Fixpoint str_mul (s : string) (n : nat) : string :=
  match n with
  | O => EmptyString
  | S n' => s ++ str_mul s n'
  end.

(** [s[-n:]]: the last [n] characters, the whole string when it is shorter *)
Definition last_chars (n : nat) (s : string) : string :=
  substring (String.length s - n) n s.

Definition nl : string := String (ascii_of_nat 10) EmptyString.

End PyOps.

Export PyOps.

(** ** m2m_cognito_setup.py *)

Module M2M.

Section Script.
Context `{Builtins}.
Variable env : environment.

(* Configuration *)
Definition REGION : string := "us-west-2".
Definition POOL_NAME : string := "M2MUserPool".
Definition RESOURCE_SERVER_IDENTIFIER : string := "https://api.myapp.com".
Definition RESOURCE_SERVER_NAME : string := "MyApp API".
Definition CLIENT_NAME : string := "M2MClient".

Definition scope (name description : string) : pyval :=
  VDict [("ScopeName", VStr name); ("ScopeDescription", VStr description)].

(** The body of the outer [try] of [create_m2m_pool]. *)
Definition create_m2m_pool_body (cognito_client : client) : M pyval :=
  (* Step 1: Create User Pool *)
  print "Creating User Pool..." ;;
  user_pool_response <- api env cognito_client "create_user_pool"
    [("PoolName", VStr POOL_NAME);
     ("Policies", VDict [("PasswordPolicy", VDict [("MinimumLength", VInt 8)])])] ;;
  user_pool <- lift (getitem user_pool_response "UserPool") ;;
  pool_id <- lift (getitem user_pool "Id") ;;
  print ("✅ User Pool created with ID: " ++ py_str pool_id) ;;
  (* Save pool details to file *)
  dump_default_str env "pool.json" user_pool_response ;;
  (* Step 2: Create Resource Server with custom scopes *)
  print "Creating Resource Server with custom scopes..." ;;
  resource_server_response <- api env cognito_client "create_resource_server"
    [("UserPoolId", pool_id);
     ("Identifier", VStr RESOURCE_SERVER_IDENTIFIER);
     ("Name", VStr RESOURCE_SERVER_NAME);
     ("Scopes", VList [scope "read" "Read access to API resources";
                       scope "write" "Write access to API resources";
                       scope "admin" "Administrative access to API resources"])] ;;
  resource_server <- lift (getitem resource_server_response "ResourceServer") ;;
  resource_server_id <- lift (getitem resource_server "Identifier") ;;
  print ("✅ Resource Server created with ID: " ++ py_str resource_server_id) ;;
  (* Save resource server details to file *)
  dump_default_str env "resource_server.json" resource_server_response ;;
  (* Step 3: Create Machine-to-Machine App Client *)
  print "Creating M2M App Client..." ;;
  client_response <- api env cognito_client "create_user_pool_client"
    [("UserPoolId", pool_id);
     ("ClientName", VStr CLIENT_NAME);
     ("GenerateSecret", VBool true);
     ("ExplicitAuthFlows", VList [VStr "ALLOW_ADMIN_USER_PASSWORD_AUTH"]);
     ("SupportedIdentityProviders", VList [VStr "COGNITO"]);
     ("AllowedOAuthFlows", VList [VStr "client_credentials"]);
     ("AllowedOAuthScopes", VList [VStr (RESOURCE_SERVER_IDENTIFIER ++ "/read");
                                   VStr (RESOURCE_SERVER_IDENTIFIER ++ "/write");
                                   VStr (RESOURCE_SERVER_IDENTIFIER ++ "/admin")]);
     ("AllowedOAuthFlowsUserPoolClient", VBool true)] ;;
  user_pool_client <- lift (getitem client_response "UserPoolClient") ;;
  client_id <- lift (getitem user_pool_client "ClientId") ;;
  user_pool_client' <- lift (getitem client_response "UserPoolClient") ;;
  client_secret <- lift (getitem user_pool_client' "ClientSecret") ;;
  print ("✅ M2M Client created with ID: " ++ py_str client_id) ;;
  (* Save client details to file *)
  dump_default_str env "m2m_client.json" client_response ;;
  (* Step 4: Create User Pool Domain *)
  let domain_name := "m2m-domain-" ++ last_chars 5 (str_of_int (unix_time env)) in
  print ("Creating User Pool Domain: " ++ domain_name) ;;
  try_except
    (api env cognito_client "create_user_pool_domain"
       [("Domain", VStr domain_name); ("UserPoolId", pool_id)] ;;
     print ("✅ Domain created: " ++ domain_name))
    (fun e =>
       match e with
       | ClientError code _ =>
           if String.eqb code "InvalidParameterException"
           then print ("⚠️  Domain " ++ domain_name ++ " might already exist, continuing...")
           else raise e
       | _ => raise e
       end) ;;
  (* Step 5: Create test user *)
  print "Creating test user..." ;;
  try_except
    (api env cognito_client "admin_create_user"
       [("UserPoolId", pool_id);
        ("Username", VStr "m2m-test-user");
        ("TemporaryPassword", VStr "TempPass123!");
        ("MessageAction", VStr "SUPPRESS")] ;;
     (* Set permanent password *)
     api env cognito_client "admin_set_user_password"
       [("UserPoolId", pool_id);
        ("Username", VStr "m2m-test-user");
        ("Password", VStr "TestPass123!");
        ("Permanent", VBool true)] ;;
     print "✅ Test user created: m2m-test-user / TestPass123!")
    (fun e =>
       match e with
       | ClientError code _ =>
           if String.eqb code "UsernameExistsException"
           then print "⚠️  Test user already exists, continuing..."
           else raise e
       | _ => raise e
       end) ;;
  (* Step 6: Display results *)
  print (nl ++ str_mul "=" 50) ;;
  print "Machine-to-Machine Client Created Successfully!" ;;
  print (str_mul "=" 50) ;;
  print ("User Pool ID: " ++ py_str pool_id) ;;
  print ("Resource Server ID: " ++ py_str resource_server_id) ;;
  print ("Client ID: " ++ py_str client_id) ;;
  print (str_mul "=" 50) ;;
  (* Step 7: Save credentials to JSON file *)
  let credentials := VDict
    [("userPoolId", pool_id);
     ("resourceServerId", resource_server_id);
     ("clientId", client_id);
     ("clientSecret", client_secret);
     ("region", VStr REGION);
     ("scopes", VList [VStr (RESOURCE_SERVER_IDENTIFIER ++ "/read");
                       VStr (RESOURCE_SERVER_IDENTIFIER ++ "/write");
                       VStr (RESOURCE_SERVER_IDENTIFIER ++ "/admin")])] in
  dump env "m2m_credentials.json" credentials ;;
  print "Credentials saved to: m2m_credentials.json" ;;
  ret (VDict
    [("pool_id", pool_id);
     ("client_id", client_id);
     ("client_secret", client_secret);
     ("domain_name", VStr domain_name);
     ("resource_server_id", resource_server_id)]).

Definition create_m2m_pool : M pyval :=
  (* Initialize Cognito IDP client *)
  cognito_client <- boto3_client env "cognito-idp" (VStr REGION) ;;
  try_except (create_m2m_pool_body cognito_client)
    (fun e =>
       match e with
       | ClientError code message =>
           print ("❌ AWS Error: " ++ code ++ " - " ++ message) ;;
           ret VNone
       | _ =>
           print ("❌ Unexpected error: " ++ exn_str e) ;;
           ret VNone
       end).

(** The [if __name__ == "__main__":] block. *)
Definition main : M unit :=
  print "🚀 Starting Cognito M2M setup with boto3..." ;;
  result <- create_m2m_pool ;;
  if truthy result
  then print (nl ++ "🎉 Setup completed successfully!")
  else print (nl ++ "❌ Setup failed!").

End Script.

End M2M.

(** ** user_cognito_setup.py *)

Module UserPool.

Section Script.
Context `{Builtins}.
Variable env : environment.

(** [os.environ.get(name)] *)
Definition os_environ_get (name : string) : pyval :=
  match environ env !! name with
  | Some s => VStr s
  | None => VNone
  end.

(** [boto3.Session().region_name]: a [str], or [None] when no region is
    configured; creating the session may raise. *)
Definition boto3_session_region_name : M pyval :=
  r <- lift (session_region env) ;;
  ret (match r with Some s => VStr s | None => VNone end).

(** Get AWS region from environment variable or boto3 session. *)
Definition get_aws_region : M pyval :=
  let region := os_environ_get "AWS_REGION" in
  region <- (if negb (truthy region)
             then try_except boto3_session_region_name (fun _ => ret region)
             else ret region) ;;
  region <- (if negb (truthy region)
             then (let region := VStr "us-east-1" in
                   print ("Warning: No region configured. Using default: " ++ py_str region) ;;
                   ret region)
             else ret region) ;;
  ret region.

(* Default values of the keyword parameters *)
Definition default_pool_name : string := "DemoUserPool".
Definition default_client_name : string := "DemoClient".
Definition default_temp_password : string := "Temp123!".
Definition default_permanent_password : string := "MyPassword123!".
Definition default_password : string := "MyPassword123!".

(** [except ClientError as e: print(message e); raise]; any other exception
    passes through the [try] statement untouched. *)
Definition log_client_error {A} (message : exn -> string) (e : exn) : M A :=
  match e with
  | ClientError _ _ => print (message e) ;; raise e
  | _ => raise e
  end.

(** Create a Cognito User Pool with password policy. *)
Definition create_user_pool (cognito_client : client) (pool_name : string) : M pyval :=
  try_except
    (response <- api env cognito_client "create_user_pool"
       [("PoolName", VStr pool_name);
        ("Policies", VDict [("PasswordPolicy", VDict [("MinimumLength", VInt 8)])])] ;;
     user_pool <- lift (getitem response "UserPool") ;;
     pool_id <- lift (getitem user_pool "Id") ;;
     print ("Created User Pool: " ++ pool_name ++ " (ID: " ++ py_str pool_id ++ ")") ;;
     ret pool_id)
    (log_client_error (fun e => "Error creating user pool: " ++ exn_str e)).

(** Create a Cognito App Client. *)
Definition create_app_client (cognito_client : client) (pool_id : pyval)
    (client_name : string) : M pyval :=
  try_except
    (response <- api env cognito_client "create_user_pool_client"
       [("UserPoolId", pool_id);
        ("ClientName", VStr client_name);
        ("GenerateSecret", VBool false);
        ("ExplicitAuthFlows", VList [VStr "ALLOW_USER_PASSWORD_AUTH";
                                     VStr "ALLOW_REFRESH_TOKEN_AUTH"])] ;;
     user_pool_client <- lift (getitem response "UserPoolClient") ;;
     client_id <- lift (getitem user_pool_client "ClientId") ;;
     print ("Created App Client: " ++ client_name ++ " (ID: " ++ py_str client_id ++ ")") ;;
     ret client_id)
    (log_client_error (fun e => "Error creating app client: " ++ exn_str e)).

(** Create a user and set permanent password. *)
Definition create_user (cognito_client : client) (pool_id : pyval)
    (username temp_password permanent_password : string) : M unit :=
  try_except
    ((* Create user with temporary password *)
     api env cognito_client "admin_create_user"
       [("UserPoolId", pool_id);
        ("Username", VStr username);
        ("TemporaryPassword", VStr temp_password);
        ("MessageAction", VStr "SUPPRESS")] ;;
     print ("Created user: " ++ username) ;;
     (* Set permanent password *)
     api env cognito_client "admin_set_user_password"
       [("UserPoolId", pool_id);
        ("Username", VStr username);
        ("Password", VStr permanent_password);
        ("Permanent", VBool true)] ;;
     ret tt)
    (log_client_error (fun e => "Error creating user " ++ username ++ ": " ++ exn_str e)).

(** Authenticate user and return access token. *)
Definition authenticate_user (cognito_client : client) (client_id : pyval)
    (username password : string) : M pyval :=
  try_except
    (response <- api env cognito_client "initiate_auth"
       [("ClientId", client_id);
        ("AuthFlow", VStr "USER_PASSWORD_AUTH");
        ("AuthParameters", VDict [("USERNAME", VStr username);
                                  ("PASSWORD", VStr password)])] ;;
     authentication_result <- lift (getitem response "AuthenticationResult") ;;
     access_token <- lift (getitem authentication_result "AccessToken") ;;
     print ("Successfully authenticated user: " ++ username) ;;
     ret access_token)
    (log_client_error (fun e => "Error authenticating user " ++ username ++ ": " ++ exn_str e)).

(** The dict [create_spa_pool] returns. *)
Definition spa_config (pool_id client_id region access_token_1 access_token_2 : pyval) : pyval :=
  let discovery_url :=
    "https://cognito-idp." ++ py_str region ++ ".amazonaws.com/" ++ py_str pool_id
      ++ "/.well-known/openid-configuration" in
  VDict
    [("pool_id", pool_id);
     ("client_id", client_id);
     ("discovery_url", VStr discovery_url);
     ("region", region);
     ("user1", VDict [("username", VStr "testuser1"); ("password", VStr "MyPassword123!")]);
     ("user2", VDict [("username", VStr "testuser2"); ("password", VStr "MyPassword123!")]);
     ("access_tokens", VDict [("testuser1", access_token_1);
                              ("testuser2", access_token_2)])].

(** Main function to set up Cognito User Pool. *)
Definition create_spa_pool : M pyval :=
  (* Get AWS region *)
  region <- get_aws_region ;;
  print ("Using AWS Region: " ++ py_str region) ;;
  print EmptyString ;;
  (* Initialize Cognito client *)
  cognito_client <- boto3_client env "cognito-idp" region ;;
  try_except
    ((* Create User Pool *)
     pool_id <- create_user_pool cognito_client default_pool_name ;;
     (* Create App Client *)
     client_id <- create_app_client cognito_client pool_id default_client_name ;;
     (* Create and authenticate first user *)
     print (nl ++ "Creating testuser1...") ;;
     create_user cognito_client pool_id "testuser1"
       default_temp_password default_permanent_password ;;
     access_token_1 <- authenticate_user cognito_client client_id "testuser1" default_password ;;
     (* Create and authenticate second user *)
     print (nl ++ "Creating testuser2...") ;;
     create_user cognito_client pool_id "testuser2"
       default_temp_password default_permanent_password ;;
     access_token_2 <- authenticate_user cognito_client client_id "testuser2" default_password ;;
     (* Return configuration for potential use *)
     ret (spa_config pool_id client_id region access_token_1 access_token_2))
    (fun e => print ("Setup failed: " ++ exn_str e) ;; raise e).

(** What a name of the module's global namespace is bound to when the
    [if __name__ == "__main__":] block runs: the imports and the [def]s
    above it.  A function that can be called without arguments is kept with
    its body. *)
Inductive binding : Type :=
| Imported
| Function0 (body : M pyval)
| FunctionN (required : nat).

Definition module_globals : list (string * binding) :=
  [("boto3", Imported); ("json", Imported); ("os", Imported); ("ClientError", Imported);
   ("get_aws_region", Function0 get_aws_region);
   ("create_user_pool", FunctionN 1);
   ("create_app_client", FunctionN 2);
   ("create_user", FunctionN 3);
   ("authenticate_user", FunctionN 3);
   ("create_spa_pool", Function0 create_spa_pool)].

Fixpoint lookup_global (name : string) (g : list (string * binding)) : option binding :=
  match g with
  | [] => None
  | (n, b) :: g' => if String.eqb n name then Some b else lookup_global name g'
  end.

(** [name()]: the name is looked up when the call is evaluated; a name
    bound neither in the module nor among the built-ins raises
    [NameError]. *)
Definition call_global (name : string) : M pyval :=
  match lookup_global name module_globals with
  | Some (Function0 body) => body
  | Some (FunctionN _) => raise (TypeError (name ++ "() missing required positional arguments"))
  | Some Imported => raise (TypeError (name ++ " cannot be called without arguments"))
  | None => raise (NameError name)
  end.

(** The [if __name__ == "__main__":] block: [config = main()]. *)
Definition main_block : M unit :=
  config <- call_global "main" ;;
  ret tt.

End Script.

End UserPool.

(** ** Concrete runs

    A concrete interpreter and concrete providers, on which the scripts are
    run by evaluation. *)

Module Demo.

#[export] Instance plain_builtins : Builtins := {|
  container_repr := fun _ => "<container>";
  exn_str := fun e =>
    match e with
    | ClientError code message => "An error occurred (" ++ code ++ "): " ++ message
    | KeyError key => "'" ++ key ++ "'"
    | TypeError msg => msg
    | NameError name => "name '" ++ name ++ "' is not defined"
    | OtherError _ msg => msg
    end
|}.

(** A provider that grants every request, the way the service answers:
    the resource server echoes the identifier it was given. *)
Definition granting (h : trace) (rq : request) : result pyval :=
  if String.eqb (op rq) "create_user_pool" then
    Ok (VDict [("UserPool", VDict [("Id", VStr "us-west-2_Ab12Cd34E");
                                   ("Name", kwarg "PoolName" rq);
                                   ("CreationDate", VObj "datetime" "2024-05-01 10:00:00+00:00")])])
  else if String.eqb (op rq) "create_resource_server" then
    Ok (VDict [("ResourceServer", VDict [("UserPoolId", kwarg "UserPoolId" rq);
                                         ("Identifier", kwarg "Identifier" rq);
                                         ("Name", kwarg "Name" rq);
                                         ("Scopes", kwarg "Scopes" rq)])])
  else if String.eqb (op rq) "create_user_pool_client" then
    Ok (VDict [("UserPoolClient", VDict [("ClientId", VStr "4h57ov2kq1example");
                                         ("ClientSecret", VStr "s3cr3t-example");
                                         ("ClientName", kwarg "ClientName" rq)])])
  else if String.eqb (op rq) "initiate_auth" then
    Ok (VDict [("AuthenticationResult",
                VDict [("AccessToken",
                        match getitem (kwarg "AuthParameters" rq) "USERNAME" with
                        | Ok (VStr u) => VStr ("token-of-" ++ u)
                        | _ => VStr "token"
                        end);
                       ("TokenType", VStr "Bearer");
                       ("ExpiresIn", VInt 3600)])])
  else Ok (VDict []).

(** The same provider, except that one method fails with a provider
    error. *)
Definition failing (method code message : string) (h : trace) (rq : request) : result pyval :=
  if String.eqb (op rq) method then Err (ClientError code message)
  else granting h rq.

(** The same provider, except that a user name is refused. *)
Definition refusing_user (username code message : string) (h : trace) (rq : request)
    : result pyval :=
  if String.eqb (op rq) "admin_create_user" then
    match kwarg "Username" rq with
    | VStr u => if String.eqb u username then Err (ClientError code message) else granting h rq
    | _ => granting h rq
    end
  else granting h rq.

(** A provider whose resource server comes back under another identifier. *)
Definition renaming (identifier : string) (h : trace) (rq : request) : result pyval :=
  if String.eqb (op rq) "create_resource_server" then
    Ok (VDict [("ResourceServer", VDict [("Identifier", VStr identifier)])])
  else granting h rq.

(** A process whose configuration lets every client be built and whose
    working directory lets every file be opened. *)
Definition env_of (vars : gmap string string) (session : result (option string))
    (p : trace -> request -> result pyval) : environment :=
  {| environ := vars; session_region := session; unix_time := 1730700123;
     make_client := fun _ => Ok tt; open_w := fun _ => Ok tt; provider := p |}.

Definition no_files : gmap string file_content := ∅.

(** Every request granted, no region configured anywhere. *)
Definition plain_env : environment := env_of ∅ (Ok None) granting.

(** [AWS_REGION] is set, to the empty string; the session has a region. *)
Definition empty_override_env : environment :=
  env_of {[ "AWS_REGION" := EmptyString ]} (Ok (Some "eu-west-1")) granting.

(** [AWS_REGION] is set, and so is the session's region. *)
Definition override_env : environment :=
  env_of {[ "AWS_REGION" := "ap-south-1" ]} (Ok (Some "eu-west-1")) granting.

(** Only the session has a region. *)
Definition session_env : environment := env_of ∅ (Ok (Some "eu-west-1")) granting.

(** No variable, and a profile that does not exist: neither the session
    nor a client can be created. *)
Definition profile_not_found : exn :=
  OtherError "ProfileNotFound" "The config profile (missing) could not be found".

Definition no_session_env : environment :=
  {| environ := ∅; session_region := Err profile_not_found; unix_time := 1730700123;
     make_client := fun _ => Err profile_not_found; open_w := fun _ => Ok tt;
     provider := granting |}.

(** A working directory in which [m2m_credentials.json] cannot be opened
    for writing; the domain name collides and every other request is
    granted. *)
Definition permission_denied : exn :=
  OtherError "PermissionError" "[Errno 13] Permission denied: 'm2m_credentials.json'".

Definition protected_credentials_env : environment :=
  {| environ := ∅; session_region := Ok None; unix_time := 1730700123;
     make_client := fun _ => Ok tt;
     open_w := fun name => if String.eqb name "m2m_credentials.json"
                           then Err permission_denied else Ok tt;
     provider := failing "create_user_pool_domain" "InvalidParameterException"
                   "Domain already exists" |}.

(** The second test user is refused. *)
Definition second_user_refused_env : environment :=
  env_of ∅ (Ok (Some "eu-west-1"))
    (refusing_user "testuser2" "LimitExceededException" "Too many requests").

(** The resource server comes back under another identifier. *)
Definition renamed_server_env : environment :=
  env_of ∅ (Ok None) (renaming "urn:example:other-api").

(** Domain creation fails: quota, or a name that is not valid. *)
Definition domain_quota_env : environment :=
  env_of ∅ (Ok None)
    (failing "create_user_pool_domain" "LimitExceededException" "Domain quota reached").

Definition domain_collision_env : environment :=
  env_of ∅ (Ok None)
    (failing "create_user_pool_domain" "InvalidParameterException" "Domain already exists").

(** The test user is already there. *)
Definition existing_user_env : environment :=
  env_of ∅ (Ok None)
    (failing "admin_create_user" "UsernameExistsException" "User account already exists").

End Demo.

(** ** What is observed of a run *)

Module Observe.

(** [v[k1][k2]] *)
Definition item2 (v : pyval) (k1 k2 : string) : result pyval :=
  match getitem v k1 with
  | Ok x => getitem x k2
  | Err e => Err e
  end.

(** The requests for a method with their outcomes, in the order they were
    sent; their outcomes; and the methods requested. *)
Definition entries (method : string) (t : trace) : trace :=
  filter (fun entry => String.eqb (op (fst entry)) method) t.

Definition outcomes (method : string) (t : trace) : list (result pyval) :=
  map snd (entries method t).

Definition methods (t : trace) : list string := map (fun entry => op (fst entry)) t.

(** A world with more lines printed. *)
Definition printed (w : world) (lines : list string) : world :=
  {| calls := calls w; stdout := (stdout w ++ lines)%list; files := files w |}.

(** [wp m Q w]: running [m] from [w] ends in a result and a world that
    satisfy [Q]. *)
Definition wp {A} (m : M A) (Q : result A -> world -> Prop) (w : world) : Prop :=
  Q (fst (m w)) (snd (m w)).

(** For [except ClientError as e]: the exceptions this clause lets pass. *)
Definition other_exception (e : exn) : Prop :=
  match e with
  | ClientError _ _ => False
  | _ => True
  end.

End Observe.

Export Observe.

Module UserPoolObserve.

Definition unset_or_empty (o : option string) : Prop := o = None \/ o = Some EmptyString.

Definition no_region (r : result (option string)) : Prop :=
  (exists e, r = Err e) \/ r = Ok None \/ r = Ok (Some EmptyString).

Definition warning : string := "Warning: No region configured. Using default: us-east-1".

(** The requests of a complete run, each with the response it got. *)
Definition complete_trace (region pool_id client_id : pyval)
    (pool app created1 set1 auth1 created2 set2 auth2 : pyval) : trace :=
  let c := {| service_name := "cognito-idp"; region_name := region |} in
  let create username :=
    {| via := c; op := "admin_create_user";
       kwargs := [("UserPoolId", pool_id); ("Username", VStr username);
                  ("TemporaryPassword", VStr "Temp123!");
                  ("MessageAction", VStr "SUPPRESS")] |} in
  let set_password username :=
    {| via := c; op := "admin_set_user_password";
       kwargs := [("UserPoolId", pool_id); ("Username", VStr username);
                  ("Password", VStr "MyPassword123!"); ("Permanent", VBool true)] |} in
  let authenticate username :=
    {| via := c; op := "initiate_auth";
       kwargs := [("ClientId", client_id); ("AuthFlow", VStr "USER_PASSWORD_AUTH");
                  ("AuthParameters", VDict [("USERNAME", VStr username);
                                            ("PASSWORD", VStr "MyPassword123!")])] |} in
  [({| via := c; op := "create_user_pool";
       kwargs := [("PoolName", VStr "DemoUserPool");
                  ("Policies",
                   VDict [("PasswordPolicy", VDict [("MinimumLength", VInt 8)])])] |},
    Ok pool);
   ({| via := c; op := "create_user_pool_client";
       kwargs := [("UserPoolId", pool_id); ("ClientName", VStr "DemoClient");
                  ("GenerateSecret", VBool false);
                  ("ExplicitAuthFlows", VList [VStr "ALLOW_USER_PASSWORD_AUTH";
                                               VStr "ALLOW_REFRESH_TOKEN_AUTH"])] |},
    Ok app);
   (create "testuser1", Ok created1);
   (set_password "testuser1", Ok set1);
   (authenticate "testuser1", Ok auth1);
   (create "testuser2", Ok created2);
   (set_password "testuser2", Ok set2);
   (authenticate "testuser2", Ok auth2)].

Definition is_user (u : string) (v : pyval) : bool :=
  match v with
  | VStr s => String.eqb s u
  | _ => false
  end.

(** The passwords that [admin_set_user_password] requests set for a user,
    in the order of the requests. *)
Definition passwords_set (u : string) (t : trace) : list pyval :=
  map (fun entry => kwarg "Password" (fst entry))
    (filter (fun entry => is_user u (kwarg "Username" (fst entry)))
       (entries "admin_set_user_password" t)).

Definition auth_parameter (name : string) (rq : request) : pyval :=
  match getitem (kwarg "AuthParameters" rq) name with
  | Ok v => v
  | Err _ => VNone
  end.

(** The [initiate_auth] requests for a user with their outcomes, and the
    passwords they carried. *)
Definition authentications (u : string) (t : trace) : trace :=
  filter (fun entry => is_user u (auth_parameter "USERNAME" (fst entry)))
    (entries "initiate_auth" t).

Definition passwords_used (u : string) (t : trace) : list pyval :=
  map (fun entry => auth_parameter "PASSWORD" (fst entry)) (authentications u t).

End UserPoolObserve.

Module M2MObserve.

(** The scopes of the resource server, fully qualified. *)
Definition qualified_scopes : pyval :=
  VList [VStr "https://api.myapp.com/read";
         VStr "https://api.myapp.com/write";
         VStr "https://api.myapp.com/admin"].

(** A response carries [r[k1][k2]], and it is a JSON value. *)
Definition carries (r : pyval) (k1 k2 : string) : bool :=
  match item2 r k1 k2 with
  | Ok v => serialisable v
  | Err _ => false
  end.

(** A response has what the script reads from the response of a method. *)
Definition well_formed (method : string) (r : pyval) : bool :=
  if String.eqb method "create_user_pool" then carries r "UserPool" "Id"
  else if String.eqb method "create_resource_server" then
    carries r "ResourceServer" "Identifier"
  else if String.eqb method "create_user_pool_client" then
    carries r "UserPoolClient" "ClientId" && carries r "UserPoolClient" "ClientSecret"
  else true.

(** The provider call of a trace entry succeeded. *)
Definition granted (entry : request * result pyval) : bool :=
  match entry with
  | (rq, Ok r) => well_formed (op rq) r
  | (_, Err _) => false
  end.

(** The provider call of a trace entry failed with a provider error of the
    given code. *)
Definition fails_with (code : string) (entry : request * result pyval) : bool :=
  match entry with
  | (_, Err (ClientError c _)) => String.eqb c code
  | _ => false
  end.

(** In a trace, the calls of [method] failed with [code] and every other
    call succeeded. *)
Definition only_failure (method code : string) (t : trace) : bool :=
  forallb (fun entry => if String.eqb (op (fst entry)) method
                        then fails_with code entry
                        else granted entry) t.

(** The provider answers [create_resource_server] with the identifier it
    was given. *)
Definition echoes_identifier (t : trace) : Prop :=
  forall rq server,
    In (rq, Ok server) (entries "create_resource_server" t) ->
    item2 server "ResourceServer" "Identifier" = Ok (kwarg "Identifier" rq).

End M2MObserve.

(** ** The token test of m2m_cognito_setup.py *)

Module TokenTest.

(** What [requests.post] returns: the status code, the body as text, and
    what [response.json()] gives, which raises when the body is not JSON. *)
Record http_response : Type := HttpResponse {
  status_code : Z;
  text : string;
  json : result pyval
}.

(** The [requests] library as the process finds it: whether it can be
    imported, and what a POST to a URL with form data and headers
    answers. *)
Record web : Type := Web {
  import_requests : result unit;
  post : string -> pyval -> pyval -> result http_response
}.

(** [d.get(key, default)]; only a dict has the method. *)
Definition dict_get (d : pyval) (key : string) (default : pyval) : result pyval :=
  match d with
  | VDict l =>
      match assoc key l with
      | Some v => Ok v
      | None => Ok default
      end
  | _ => Err (OtherError "AttributeError" "object has no attribute 'get'")
  end.

(** [v[:n]]: the first [n] characters of a [str], the first [n] items of a
    list; any other value raises (a dict raises too, [TypeError] or
    [KeyError] by the version of the interpreter). *)
Definition slice_to (n : nat) (v : pyval) : result pyval :=
  match v with
  | VStr s => Ok (VStr (substring 0 n s))
  | VList l => Ok (VList (firstn n l))
  | _ => Err (TypeError "object is not subscriptable")
  end.

Section Script.
Context `{Builtins}.
Variable net : web.

Definition token_url (domain_name : pyval) : string :=
  "https://" ++ py_str domain_name ++ ".auth." ++ M2M.REGION
    ++ ".amazoncognito.com/oauth2/token".

Definition token_request_data (client_id client_secret : pyval) : pyval :=
  VDict [("grant_type", VStr "client_credentials");
         ("client_id", client_id);
         ("client_secret", client_secret);
         ("scope", VStr (M2M.RESOURCE_SERVER_IDENTIFIER ++ "/read "
                         ++ M2M.RESOURCE_SERVER_IDENTIFIER ++ "/write"))].

Definition token_request_headers : pyval :=
  VDict [("Content-Type", VStr "application/x-www-form-urlencoded")].

(** The [try] statement of the token test. *)
Definition token_exchange (domain_name client_id client_secret : pyval) : M pyval :=
  let token_url := token_url domain_name in
  let data := token_request_data client_id client_secret in
  let headers := token_request_headers in
  try_except
    (response <- lift (post net token_url data headers) ;;
     if status_code response =? 200 then
       (token_data <- lift (json response) ;;
        print (nl ++ "✅ Successfully obtained access token!") ;;
        access_token <- lift (dict_get token_data "access_token" (VStr "N/A")) ;;
        shown <- lift (slice_to 50 access_token) ;;
        print ("Access Token: " ++ py_str shown ++ "...") ;;
        token_type <- lift (dict_get token_data "token_type" (VStr "N/A")) ;;
        print ("Token Type: " ++ py_str token_type) ;;
        expires_in <- lift (dict_get token_data "expires_in" (VStr "N/A")) ;;
        print ("Expires In: " ++ py_str expires_in ++ " seconds") ;;
        ret token_data)
     else
       (print (nl ++ "❌ Failed to obtain token: " ++ str_of_int (status_code response)
                 ++ " - " ++ text response) ;;
        ret VNone))
    (fun e =>
       print (nl ++ "❌ Error testing token endpoint: " ++ exn_str e) ;;
       ret VNone).

(** Optional function to test the Client Credentials flow
    programmatically. *)
Definition test_client_credentials_flow (domain_name client_id client_secret : pyval)
    : M pyval :=
  lift (import_requests net) ;;     (* import requests *)
  token_exchange domain_name client_id client_secret.

End Script.

(** A token endpoint that issues a token, and one that rejects the
    client. *)
Definition issuing : web :=
  {| import_requests := Ok tt;
     post := fun _ _ _ =>
       Ok {| status_code := 200;
             text := "{...}";
             json := Ok (VDict [("access_token", VStr "eyJraWQiOiJleGFtcGxlIn0.e30.c2ln");
                                ("token_type", VStr "Bearer");
                                ("expires_in", VInt 3600)]) |} |}.

Definition rejecting : web :=
  {| import_requests := Ok tt;
     post := fun _ _ _ =>
       Ok {| status_code := 400; text := "invalid_client";
             json := Ok (VDict [("error", VStr "invalid_client")]) |} |}.

Definition not_installed : web :=
  {| import_requests := Err (OtherError "ModuleNotFoundError" "No module named 'requests'");
     post := post issuing |}.

(** A token endpoint that cannot be reached, and one that answers 200
    with a body that is not JSON. *)
Definition unreachable : web :=
  {| import_requests := Ok tt;
     post := fun _ _ _ => Err (OtherError "ConnectionError" "Failed to resolve host") |}.

Definition not_json : web :=
  {| import_requests := Ok tt;
     post := fun _ _ _ =>
       Ok {| status_code := 200; text := "<html>";
             json := Err (OtherError "JSONDecodeError"
                            "Expecting value: line 1 column 1 (char 0)") |} |}.

End TokenTest.

(** ** More of what is observed of a run *)

Module Conduct.

(** A world at the start of a run, with some lines already printed. *)
Definition begun (out : list string) (fs : gmap string file_content) : world :=
  {| calls := []; stdout := out; files := fs |}.

(** A list that goes on from another. *)
Definition extends {A} (l l' : list A) : Prop := exists more, l' = (l ++ more)%list.

(** The requests made since a world, and whether nothing else changed
    between two worlds than requests and lines. *)
Definition requested (w w' : world) (new : trace) : Prop :=
  calls w' = (calls w ++ new)%list /\ files w' = files w /\ extends (stdout w) (stdout w').

(** The files [create_m2m_pool] writes, and the order of its requests. *)
Definition written_files : list string :=
  ["pool.json"; "resource_server.json"; "m2m_client.json"; "m2m_credentials.json"].

Definition request_order : list string :=
  ["create_user_pool"; "create_resource_server"; "create_user_pool_client";
   "create_user_pool_domain"; "admin_create_user"; "admin_set_user_password"].

Definition m2m_client : client :=
  {| service_name := "cognito-idp"; region_name := VStr "us-west-2" |}.


(** The failures [create_m2m_pool] goes on after: the parameter error of
    domain creation, and the existing user name in the step of the test
    user. *)
Definition tolerated (rq : request) (e : exn) : bool :=
  match e with
  | ClientError code _ =>
      (String.eqb (op rq) "create_user_pool_domain"
       && String.eqb code "InvalidParameterException")
      || ((String.eqb (op rq) "admin_create_user"
           || String.eqb (op rq) "admin_set_user_password")
          && String.eqb code "UsernameExistsException")
  | _ => false
  end.

(** The names of the scopes a [create_resource_server] request declares,
    and the scopes qualified by an identifier. *)
Definition scope_name (v : pyval) : string :=
  match getitem v "ScopeName" with
  | Ok (VStr name) => name
  | _ => EmptyString
  end.

Definition declared_scopes (rq : request) : list string :=
  match kwarg "Scopes" rq with
  | VList l => map scope_name l
  | _ => []
  end.

Definition qualify (identifier : pyval) (names : list string) : pyval :=
  match identifier with
  | VStr id => VList (map (fun name => VStr (id ++ "/" ++ name)) names)
  | _ => VNone
  end.

(** The banners of the script. *)
Definition start_banner : string := "🚀 Starting Cognito M2M setup with boto3...".
Definition success_banner : string := nl ++ "🎉 Setup completed successfully!".
Definition failure_banner : string := nl ++ "❌ Setup failed!".

(** The requests of [create_user] and of [authenticate_user]. *)
Definition create_user_request (c : client) (pool_id : pyval) (username temp : string)
    : request :=
  {| via := c; op := "admin_create_user";
     kwargs := [("UserPoolId", pool_id); ("Username", VStr username);
                ("TemporaryPassword", VStr temp); ("MessageAction", VStr "SUPPRESS")] |}.

Definition set_password_request (c : client) (pool_id : pyval)
    (username password : string) : request :=
  {| via := c; op := "admin_set_user_password";
     kwargs := [("UserPoolId", pool_id); ("Username", VStr username);
                ("Password", VStr password); ("Permanent", VBool true)] |}.

Definition authenticate_request (c : client) (client_id : pyval)
    (username password : string) : request :=
  {| via := c; op := "initiate_auth";
     kwargs := [("ClientId", client_id); ("AuthFlow", VStr "USER_PASSWORD_AUTH");
                ("AuthParameters", VDict [("USERNAME", VStr username);
                                          ("PASSWORD", VStr password)])] |}.

End Conduct.

(** ** Stepping through a run *)

Section Rules.
Context {A B : Type}.

Lemma wp_ret (a : A) Q w : Q (Ok a) w -> wp (ret a) Q w.
Proof. exact (fun q => q). Qed.

Lemma wp_raise (e : exn) (Q : result A -> world -> Prop) w :
  Q (Err e) w -> wp (raise e) Q w.
Proof. exact (fun q => q). Qed.

Lemma wp_bind (m : M A) (k : A -> M B) Q w :
  wp m (fun r w1 => match r with
                    | Ok a => wp (k a) Q w1
                    | Err e => Q (Err e) w1
                    end) w ->
  wp (bind m k) Q w.
Proof. unfold wp, bind. now destruct (m w) as [[a|e] w1]. Qed.

Lemma wp_try_except (body : M A) (handler : exn -> M A) Q w :
  wp body (fun r w1 => match r with
                       | Ok a => Q (Ok a) w1
                       | Err e => wp (handler e) Q w1
                       end) w ->
  wp (try_except body handler) Q w.
Proof. unfold wp, try_except. now destruct (body w) as [[a|e] w1]. Qed.

Lemma wp_if (b : bool) (m1 m2 : M A) Q w :
  (b = true -> wp m1 Q w) -> (b = false -> wp m2 Q w) ->
  wp (if b then m1 else m2) Q w.
Proof. destruct b; auto. Qed.

Lemma wp_except (e : exn) (f : string -> string -> M A) (g : M A) Q w :
  (forall code message, e = ClientError code message -> wp (f code message) Q w) ->
  (other_exception e -> wp g Q w) ->
  wp (match e with
      | ClientError code message => f code message
      | _ => g
      end) Q w.
Proof. intros Hf Hg. destruct e; first [now apply Hf | now apply Hg]. Qed.

End Rules.

Lemma wp_print line (Q : result unit -> world -> Prop) w :
  Q (Ok tt) {| calls := calls w; stdout := (stdout w ++ [line])%list; files := files w |} ->
  wp (print line) Q w.
Proof. exact (fun q => q). Qed.

Lemma wp_write_file env name c (Q : result unit -> world -> Prop) w :
  (open_w env name = Ok tt ->
   Q (Ok tt) {| calls := calls w; stdout := stdout w; files := <[ name := c ]> (files w) |}) ->
  (forall e, open_w env name = Err e -> Q (Err e) w) ->
  wp (write_file env name c) Q w.
Proof.
  intros Hok Herr. unfold wp, write_file.
  destruct (open_w env name) as [[]|e]; [now apply Hok | now apply Herr].
Qed.

Lemma wp_boto3_client env service region (Q : result client -> world -> Prop) w :
  let c := {| service_name := service; region_name := region |} in
  (make_client env c = Ok tt -> Q (Ok c) w) ->
  (forall e, make_client env c = Err e -> Q (Err e) w) ->
  wp (boto3_client env service region) Q w.
Proof.
  intros c Hok Herr. unfold wp, boto3_client. fold c.
  destruct (make_client env c) as [[]|e]; [now apply Hok | now apply Herr].
Qed.

Lemma wp_api env c method kw (Q : result pyval -> world -> Prop) w :
  let rq := {| via := c; op := method; kwargs := kw |} in
  (forall response, provider env (calls w) rq = Ok response ->
     Q (Ok response)
       {| calls := (calls w ++ [(rq, Ok response)])%list;
          stdout := stdout w; files := files w |}) ->
  (forall e, provider env (calls w) rq = Err e ->
     Q (Err e)
       {| calls := (calls w ++ [(rq, Err e)])%list;
          stdout := stdout w; files := files w |}) ->
  wp (api env c method kw) Q w.
Proof.
  intros rq Hok Herr. unfold wp, api. fold rq.
  destruct (provider env (calls w) rq) as [response|e] eqn:E;
    [now apply Hok | now apply Herr].
Qed.

Lemma wp_getitem v key (Q : result pyval -> world -> Prop) w :
  (forall x, getitem v key = Ok x -> Q (Ok x) w) ->
  (forall e, getitem v key = Err e -> Q (Err e) w) ->
  wp (lift (getitem v key)) Q w.
Proof.
  intros Hok Herr. unfold wp, lift. simpl.
  destruct (getitem v key) as [x|e]; [now apply Hok | now apply Herr].
Qed.


Ltac head_of t :=
  lazymatch t with
  | ?f _ => head_of f
  | _ => t
  end.

Ltac tidy := cbv beta iota zeta delta [calls stdout files].

(** One step of the run: the rule of the statement at the head, or the
    body of the function called there. *)
Ltac wp_step :=
  lazymatch goal with
  | |- wp (bind _ _) _ _ => simple apply wp_bind
  | |- wp (try_except _ _) _ _ => simple apply wp_try_except
  | |- wp (ret _) _ _ => simple apply wp_ret
  | |- wp (raise _) _ _ => simple apply wp_raise
  | |- wp (lift (getitem _ _)) _ _ =>
      let E := fresh "Item" in simple apply wp_getitem; intros ? E
  | |- wp (print _) _ _ => simple apply wp_print
  | |- wp (write_file _ _ _) _ _ =>
      let E := fresh "Opened" in simple apply wp_write_file; [intros E | intros ? E]
  | |- wp (boto3_client _ _ _) _ _ =>
      let E := fresh "Built" in simple apply wp_boto3_client; [intros E | intros ? E]
  | |- wp (api _ _ _ _) _ _ =>
      let E := fresh "Answer" in simple apply wp_api; intros ? E
  | |- wp (match _ with ClientError _ _ => _ | _ => _ end) _ _ =>
      let E := fresh "Raised" in
      simple apply wp_except; [intros ? ? E | intros E]
  | |- wp (if _ then _ else _) _ _ =>
      let E := fresh "Test" in simple apply wp_if; intros E
  | |- wp ?m _ _ => let h := head_of m in unfold h
  end; tidy.

(** A key looked up twice in the same dict gives the same value. *)
Ltac merge_items :=
  repeat match goal with
         | E1 : getitem ?v ?k = Ok ?a, E2 : getitem ?v ?k = Ok ?b |- _ =>
             assert (b = a) by congruence; subst b; clear E2
         end.

(** Replace every [d[key]] whose value is known. *)
Ltac use_items :=
  repeat match goal with
         | E : getitem ?v ?k = _ |- context [getitem ?v ?k] => rewrite E
         end.

(** ** Properties of user_cognito_setup.py *)

Module UserPoolFacts.
Import UserPool UserPoolObserve.

Section Facts.
Context `{Builtins}.
Variable env : environment.

Lemma truthy_str (s : string) : s <> EmptyString -> truthy (VStr s) = true.
Proof.
  intros Hs. simpl. destruct (String.eqb s EmptyString) eqn:E; [|reflexivity].
  apply String.eqb_eq in E. contradiction.
Qed.

Lemma region_from_override (w : world) (s : string) :
  environ env !! "AWS_REGION" = Some s -> s <> EmptyString ->
  get_aws_region env w = (Ok (VStr s), w).
Proof.
  intros E Hs. unfold get_aws_region, os_environ_get. rewrite E.
  cbv beta iota zeta. rewrite (truthy_str s Hs).
  unfold bind, ret. cbv beta iota zeta delta [negb]. rewrite (truthy_str s Hs). reflexivity.
Qed.

Lemma region_from_session (w : world) (r : string) :
  unset_or_empty (environ env !! "AWS_REGION") ->
  session_region env = Ok (Some r) -> r <> EmptyString ->
  get_aws_region env w = (Ok (VStr r), w).
Proof.
  intros [E|E] S Hr; unfold get_aws_region, os_environ_get, boto3_session_region_name;
    rewrite E;
    [change (truthy VNone) with false | change (truthy (VStr EmptyString)) with false];
    unfold bind, try_except, lift, ret; rewrite S;
    cbv beta iota zeta delta [negb];
    rewrite (truthy_str r Hr); reflexivity.
Qed.

Lemma region_default (w : world) :
  unset_or_empty (environ env !! "AWS_REGION") ->
  no_region (session_region env) ->
  get_aws_region env w = (Ok (VStr "us-east-1"), printed w [warning]).
Proof.
  intros [E|E] [[e S]|[S|S]];
    unfold get_aws_region, os_environ_get, boto3_session_region_name;
    rewrite E; unfold bind, try_except, lift, ret; rewrite S; reflexivity.
Qed.

(** The three ways [get_aws_region] can go. *)
Lemma region_cases :
  (exists s, environ env !! "AWS_REGION" = Some s /\ s <> EmptyString)
  \/ (unset_or_empty (environ env !! "AWS_REGION")
      /\ exists r, session_region env = Ok (Some r) /\ r <> EmptyString)
  \/ (unset_or_empty (environ env !! "AWS_REGION") /\ no_region (session_region env)).
Proof.
  assert (Hsession : unset_or_empty (environ env !! "AWS_REGION") ->
            (unset_or_empty (environ env !! "AWS_REGION")
             /\ exists r, session_region env = Ok (Some r) /\ r <> EmptyString)
            \/ (unset_or_empty (environ env !! "AWS_REGION")
                /\ no_region (session_region env))).
  { intros Hu. destruct (session_region env) as [[r|]|e].
    - destruct (string_dec r EmptyString) as [->|Hr].
      + right. split; [exact Hu|]. right. right. reflexivity.
      + left. split; [exact Hu|]. exists r. split; [reflexivity | exact Hr].
    - right. split; [exact Hu|]. right. left. reflexivity.
    - right. split; [exact Hu|]. left. exists e. reflexivity. }
  destruct (environ env !! "AWS_REGION") as [s|].
  - destruct (string_dec s EmptyString) as [->|Hs].
    + right. apply Hsession. right. reflexivity.
    + left. exists s. split; [reflexivity | exact Hs].
  - right. apply Hsession. left. reflexivity.
Qed.

(** Whatever the process finds, [get_aws_region] returns a non-empty
    string, sends nothing to the provider and touches no file. *)
Lemma get_aws_region_run (w : world) :
  exists s lines, get_aws_region env w = (Ok (VStr s), printed w lines) /\ s <> EmptyString.
Proof.
  destruct region_cases as [(s & E & Hs)|[(Hu & r & S & Hr)|(Hu & Hn)]].
  - exists s, []. split; [|exact Hs].
    rewrite (region_from_override w s E Hs). unfold printed. rewrite app_nil_r.
    now destruct w.
  - exists r, []. split; [|exact Hr].
    rewrite (region_from_session w r Hu S Hr). unfold printed. rewrite app_nil_r.
    now destruct w.
  - exists "us-east-1", [warning]. split; [|discriminate].
    exact (region_default w Hu Hn).
Qed.

Lemma wp_get_aws_region (Q : result pyval -> world -> Prop) w :
  (forall s lines, s <> EmptyString -> Q (Ok (VStr s)) (printed w lines)) ->
  wp (get_aws_region env) Q w.
Proof.
  intros HQ. destruct (get_aws_region_run w) as (s & lines & E & Hs).
  unfold wp. rewrite E. exact (HQ s lines Hs).
Qed.

(** What a run of [create_spa_pool] can end with: a record, after every
    request was granted and every response carried what is read from it; or
    an exception. *)
Lemma spa_outcome (fs : gmap string file_content) :
  wp (create_spa_pool env)
    (fun r w' =>
       match r with
       | Ok config =>
           exists region pool_id client_id token1 token2
                  pool app created1 set1 auth1 created2 set2 auth2,
             calls w' = complete_trace region pool_id client_id
                          pool app created1 set1 auth1 created2 set2 auth2
             /\ item2 pool "UserPool" "Id" = Ok pool_id
             /\ item2 app "UserPoolClient" "ClientId" = Ok client_id
             /\ item2 auth1 "AuthenticationResult" "AccessToken" = Ok token1
             /\ item2 auth2 "AuthenticationResult" "AccessToken" = Ok token2
             /\ config = spa_config pool_id client_id region token1 token2
       | Err _ => True
       end)
    (start fs).
Proof.
  unfold create_spa_pool, start.
  simple apply wp_bind. apply wp_get_aws_region. intros s lines _.
  unfold printed. tidy.
  repeat (wp_step; try exact I).
  do 13 eexists. split; [reflexivity|].
  unfold item2. use_items. repeat split; reflexivity.
Qed.

Lemma complete_trace_granted region pool_id client_id
    pool app created1 set1 auth1 created2 set2 auth2 rq e :
  ~ In (rq, Err e)
      (complete_trace region pool_id client_id
         pool app created1 set1 auth1 created2 set2 auth2).
Proof.
  unfold complete_trace. simpl In. intros Hin.
  repeat (destruct Hin as [Hin|Hin]; [discriminate Hin|]). exact Hin.
Qed.

(** C9.  [get_aws_region] never raises and always returns a non-empty
    string, whatever the environment holds and whatever the session lookup
    does: an unset or empty [AWS_REGION], a session without a region, a
    session lookup that raises. *)
Theorem get_aws_region_total (w : world) :
  exists s w', get_aws_region env w = (Ok (VStr s), w') /\ s <> EmptyString.
Proof.
  destruct (get_aws_region_run w) as (s & lines & E & Hs).
  exists s, (printed w lines). split; [exact E | exact Hs].
Qed.

(** C7, as the code has it.  A non-empty [AWS_REGION] is returned as it is;
    else a non-empty region of the session is returned; else the result is
    ['us-east-1'] and the warning is printed.  In the first two cases
    nothing is printed. *)
Theorem region_preference (w : world) :
  (forall s, environ env !! "AWS_REGION" = Some s -> s <> EmptyString ->
     get_aws_region env w = (Ok (VStr s), w))
  /\ (forall r, unset_or_empty (environ env !! "AWS_REGION") ->
        session_region env = Ok (Some r) -> r <> EmptyString ->
        get_aws_region env w = (Ok (VStr r), w))
  /\ (unset_or_empty (environ env !! "AWS_REGION") ->
      no_region (session_region env) ->
      get_aws_region env w = (Ok (VStr "us-east-1"), printed w [warning])).
Proof.
  split; [|split].
  - intros s. apply region_from_override.
  - intros r. apply region_from_session.
  - apply region_default.
Qed.

(** C1, what the code does.  The block under [if __name__ == "__main__":]
    calls [main], a name the module never binds: the call raises
    [NameError] before anything is printed or sent, [create_spa_pool] is
    not run, and the interpreter exits with status 1 whatever the
    environment. *)
Theorem main_block_raises_name_error (w : world) :
  main_block env w = (Err (NameError "main"), w)
  /\ exit_status (fst (main_block env w)) = 1.
Proof. split; reflexivity. Qed.

(** C6.  A run in which the provider refused any request returns no
    record; and a run that returns a record went through all eight
    requests, each granted, with both access tokens read from the
    responses: the record is composed only after every step succeeded. *)
Theorem record_only_after_every_step (fs : gmap string file_content) :
  (forall rq e, In (rq, Err e) (calls (snd (create_spa_pool env (start fs)))) ->
     exists e', fst (create_spa_pool env (start fs)) = Err e')
  /\ (forall config, fst (create_spa_pool env (start fs)) = Ok config ->
        exists region pool_id client_id token1 token2
               pool app created1 set1 auth1 created2 set2 auth2,
          calls (snd (create_spa_pool env (start fs)))
            = complete_trace region pool_id client_id
                pool app created1 set1 auth1 created2 set2 auth2
          /\ item2 auth1 "AuthenticationResult" "AccessToken" = Ok token1
          /\ item2 auth2 "AuthenticationResult" "AccessToken" = Ok token2
          /\ config = spa_config pool_id client_id region token1 token2).
Proof.
  pose proof (spa_outcome fs) as O. unfold wp in O.
  destruct (fst (create_spa_pool env (start fs))) as [config|e'].
  - destruct O as (region & pool_id & client_id & token1 & token2 & pool & app
                   & created1 & set1 & auth1 & created2 & set2 & auth2
                   & T & _ & _ & T1 & T2 & C).
    split.
    + intros rq e Hin. rewrite T in Hin.
      now apply complete_trace_granted in Hin.
    + intros config' [= <-].
      exists region, pool_id, client_id, token1, token2,
        pool, app, created1, set1, auth1, created2, set2, auth2.
      repeat split; assumption.
  - split; [intros _ _ _; exists e'; reflexivity | discriminate].
Qed.

(** C10.  In a run that returns a record, the password the record reports
    for [user1] and for [user2] is the one password set on that user by
    [admin_set_user_password] and the one password sent by the
    [initiate_auth] request whose response carried that user's access
    token in the record. *)
Theorem reported_passwords_are_provisioned (fs : gmap string file_content)
    (config : pyval) :
  fst (create_spa_pool env (start fs)) = Ok config ->
  let t := calls (snd (create_spa_pool env (start fs))) in
  forall user name,
    (user, name) = ("user1", "testuser1") \/ (user, name) = ("user2", "testuser2") ->
    exists password rq auth token,
      item2 config user "username" = Ok (VStr name)
      /\ item2 config user "password" = Ok password
      /\ password = VStr "MyPassword123!"
      /\ passwords_set name t = [password]
      /\ passwords_used name t = [password]
      /\ authentications name t = [(rq, Ok auth)]
      /\ item2 auth "AuthenticationResult" "AccessToken" = Ok token
      /\ item2 config "access_tokens" name = Ok token.
Proof.
  intros E. pose proof (spa_outcome fs) as O. unfold wp in O. rewrite E in O.
  destruct O as (region & pool_id & client_id & token1 & token2 & pool & app
                 & created1 & set1 & auth1 & created2 & set2 & auth2
                 & T & _ & _ & T1 & T2 & ->).
  intros t user name. subst t. rewrite T.
  intros [[= -> ->]|[= -> ->]].
  - eexists _, _, auth1, token1. repeat split; try reflexivity. exact T1.
  - eexists _, _, auth2, token2. repeat split; try reflexivity. exact T2.
Qed.

End Facts.

Import Demo.

(** C7 as it is stated fails when [AWS_REGION] is set to the empty string:
    the value returned is the session's region, not the variable's. *)
Lemma empty_override_not_returned :
  environ empty_override_env !! "AWS_REGION" = Some EmptyString
  /\ fst (get_aws_region empty_override_env (start no_files)) = Ok (VStr "eu-west-1")
  /\ fst (get_aws_region empty_override_env (start no_files)) <> Ok (VStr EmptyString).
Proof. split; [|split]; [reflexivity | reflexivity | discriminate]. Qed.

Lemma region_preference_witness :
  get_aws_region override_env (start no_files) = (Ok (VStr "ap-south-1"), start no_files)
  /\ get_aws_region session_env (start no_files) = (Ok (VStr "eu-west-1"), start no_files)
  /\ get_aws_region no_session_env (start no_files)
      = (Ok (VStr "us-east-1"), printed (start no_files) [warning]).
Proof.
  split; [|split].
  - apply (proj1 (region_preference override_env (start no_files)) "ap-south-1");
      [reflexivity | discriminate].
  - apply (proj1 (proj2 (region_preference session_env (start no_files))) "eu-west-1");
      [left; reflexivity | reflexivity | discriminate].
  - apply (proj2 (proj2 (region_preference no_session_env (start no_files))));
      [left; reflexivity | left; eexists; reflexivity].
Defined.

(** On the same input the setup itself goes through and returns a record:
    only the call of the undefined name stops the script. *)
Example setup_not_reached :
  (exists config, fst (create_spa_pool plain_env (start no_files)) = Ok config)
  /\ calls (snd (main_block plain_env (start no_files))) = []
  /\ stdout (snd (main_block plain_env (start no_files))) = [].
Proof. split; [|split]; [eexists; reflexivity | reflexivity | reflexivity]. Qed.

(** The first user is authenticated, the second is refused: no record. *)
Lemma record_only_after_every_step_witness :
  (exists rq auth, authentications "testuser1"
                     (calls (snd (create_spa_pool second_user_refused_env (start no_files))))
                   = [(rq, Ok auth)])
  /\ exists e', fst (create_spa_pool second_user_refused_env (start no_files)) = Err e'.
Proof.
  split.
  - eexists _, _. vm_compute. reflexivity.
  - assert (Hin : In ({| via := {| service_name := "cognito-idp";
                                    region_name := VStr "eu-west-1" |};
                         op := "admin_create_user";
                         kwargs := [("UserPoolId", VStr "us-west-2_Ab12Cd34E");
                                    ("Username", VStr "testuser2");
                                    ("TemporaryPassword", VStr "Temp123!");
                                    ("MessageAction", VStr "SUPPRESS")] |},
                       Err (ClientError "LimitExceededException" "Too many requests"))
                    (calls (snd (create_spa_pool second_user_refused_env
                                   (start no_files))))).
    { vm_compute. do 5 right. left. reflexivity. }
    exact (proj1 (record_only_after_every_step second_user_refused_env no_files)
             _ _ Hin).
Defined.

Lemma reported_passwords_are_provisioned_witness :
  exists password,
    item2 (spa_config (VStr "us-west-2_Ab12Cd34E") (VStr "4h57ov2kq1example")
             (VStr "us-east-1") (VStr "token-of-testuser1") (VStr "token-of-testuser2"))
      "user2" "password" = Ok password
    /\ passwords_set "testuser2"
         (calls (snd (create_spa_pool plain_env (start no_files)))) = [password].
Proof.
  assert (E : fst (create_spa_pool plain_env (start no_files))
              = Ok (spa_config (VStr "us-west-2_Ab12Cd34E") (VStr "4h57ov2kq1example")
                      (VStr "us-east-1") (VStr "token-of-testuser1")
                      (VStr "token-of-testuser2"))).
  { vm_compute. reflexivity. }
  destruct (reported_passwords_are_provisioned plain_env no_files _ E
              "user2" "testuser2" (or_intror eq_refl))
    as (password & rq & auth & token & _ & P & _ & S & _).
  exists password. split; [exact P | exact S].
Defined.

End UserPoolFacts.
(** ** Properties of m2m_cognito_setup.py *)

Module M2MFacts.
Import M2M M2MObserve Conduct.

Section Facts.
Context `{Builtins}.
Variable env : environment.

(** When [create_m2m_pool] returns a record: where each part of the
    record and of the credentials document comes from. *)
Lemma m2m_success (fs : gmap string file_content) :
  wp (create_m2m_pool env)
    (fun r w' =>
       match r with
       | Ok v =>
           v <> VNone ->
           exists pool_id resource_server_id client_id client_secret domain_name
                  pool rq_server server app earlier,
             outcomes "create_user_pool" (calls w') = [Ok pool]
             /\ entries "create_resource_server" (calls w') = [(rq_server, Ok server)]
             /\ kwarg "Identifier" rq_server = VStr RESOURCE_SERVER_IDENTIFIER
             /\ outcomes "create_user_pool_client" (calls w') = [Ok app]
             /\ item2 pool "UserPool" "Id" = Ok pool_id
             /\ item2 server "ResourceServer" "Identifier" = Ok resource_server_id
             /\ item2 app "UserPoolClient" "ClientId" = Ok client_id
             /\ item2 app "UserPoolClient" "ClientSecret" = Ok client_secret
             /\ files w' = <[ "m2m_credentials.json" :=
                                Json (VDict [("userPoolId", pool_id);
                                             ("resourceServerId", resource_server_id);
                                             ("clientId", client_id);
                                             ("clientSecret", client_secret);
                                             ("region", VStr "us-west-2");
                                             ("scopes", qualified_scopes)]) ]> earlier
             /\ v = VDict [("pool_id", pool_id);
                           ("client_id", client_id);
                           ("client_secret", client_secret);
                           ("domain_name", VStr domain_name);
                           ("resource_server_id", resource_server_id)]
       | Err _ => True
       end)
    (start fs).
Proof.
  unfold start.
  repeat wp_step.
  all: lazymatch goal with
       | |- True => exact I
       | |- VNone <> VNone -> _ => intros Hv; now destruct Hv
       | |- _ => intros _
       end.
  all: merge_items; do 10 eexists.
  all: repeat split; unfold item2; use_items; reflexivity.
Qed.

Ltac forget_answers :=
  repeat match goal with
         | A : provider _ _ _ = _ |- _ => clear A
         end.

(** An entry of the trace that is not a failure of domain creation with a
    code other than the tolerated one. *)
Ltac other_entry Hin Hop Hcode :=
  let Hrq := fresh "Hrq" in
  let Ho := fresh "Ho" in
  injection Hin as Hrq Ho;
  first
    [ discriminate Ho
    | rewrite <- Hrq in Hop; discriminate Hop
    | subst;
      repeat match goal with
             | T : String.eqb _ _ = true |- _ => apply String.eqb_eq in T
             end;
      first [ congruence
            | match goal with R : other_exception _ |- _ => exact R end ] ].

Lemma m2m_domain_error (fs : gmap string file_content) :
  wp (create_m2m_pool env)
    (fun r w' =>
       forall rq code message,
         In (rq, Err (ClientError code message)) (calls w') ->
         op rq = "create_user_pool_domain" ->
         code <> "InvalidParameterException" ->
         r = Ok VNone
         /\ methods (calls w') = ["create_user_pool"; "create_resource_server";
                                  "create_user_pool_client"; "create_user_pool_domain"]
         /\ files w' !! "m2m_credentials.json" = fs !! "m2m_credentials.json")
    (start fs).
Proof.
  unfold start.
  repeat wp_step.
  all: forget_answers; intros ? ? ? Hin Hop Hcode.
  all: cbn [app In] in Hin.
  all: first
         [ split; [reflexivity|]; split; [reflexivity|];
           rewrite !lookup_insert_ne by discriminate; reflexivity
         | exfalso;
           repeat (destruct Hin as [Hin|Hin]; [other_entry Hin Hop Hcode|]);
           exact Hin ].
Qed.



Lemma lookup_written (name : string) (c : file_content) (fs : gmap string file_content) :
  <[ name := c ]> fs !! name = Some c.
Proof. apply lookup_insert_eq. Qed.




(** C2.  In a run that returns a record, with a provider that answers
    [create_resource_server] with the identifier it was given, the
    record's [resource_server_id] is ['https://api.myapp.com'], the
    identifier the request was sent with, and so is the document's
    [resourceServerId]; the [scopes] array of the credentials document is
    the three qualified scopes in the order read, write, admin. *)
Theorem resource_server_id_and_scopes (fs : gmap string file_content) (v : pyval) :
  fst (create_m2m_pool env (start fs)) = Ok v -> v <> VNone ->
  echoes_identifier (calls (snd (create_m2m_pool env (start fs)))) ->
  getitem v "resource_server_id" = Ok (VStr "https://api.myapp.com")
  /\ (exists rq server,
        entries "create_resource_server" (calls (snd (create_m2m_pool env (start fs))))
        = [(rq, Ok server)]
        /\ kwarg "Identifier" rq = VStr RESOURCE_SERVER_IDENTIFIER)
  /\ exists doc,
       files (snd (create_m2m_pool env (start fs))) !! "m2m_credentials.json"
       = Some (Json doc)
       /\ getitem doc "resourceServerId" = Ok (VStr "https://api.myapp.com")
       /\ getitem doc "scopes" = Ok (VList [VStr "https://api.myapp.com/read";
                                            VStr "https://api.myapp.com/write";
                                            VStr "https://api.myapp.com/admin"]).
Proof.
  intros E Hv Echo. pose proof (m2m_success fs) as O. unfold wp in O. rewrite E in O.
  destruct (O Hv) as (pool_id & resource_server_id & client_id & client_secret
                      & domain_name & pool & rq & server & app & earlier
                      & _ & S & I & _ & _ & RS & _ & _ & F & ->).
  assert (Id : resource_server_id = VStr "https://api.myapp.com").
  { specialize (Echo rq server). rewrite S in Echo.
    specialize (Echo (or_introl eq_refl)). rewrite RS, I in Echo. now injection Echo. }
  subst resource_server_id.
  split; [reflexivity|].
  split; [exists rq, server; split; [exact S | exact I]|].
  eexists. split; [rewrite F; apply lookup_written|].
  split; reflexivity.
Qed.

(** C8.  In a run that returns a record, the client id and the client
    secret read from the response to the one [create_user_pool_client]
    request are, unchanged, the [clientId] and [clientSecret] of the
    credentials document and the [client_id] and [client_secret] of the
    record. *)
Theorem client_credentials_unchanged (fs : gmap string file_content) (v : pyval) :
  fst (create_m2m_pool env (start fs)) = Ok v -> v <> VNone ->
  exists app client_id client_secret doc,
    outcomes "create_user_pool_client" (calls (snd (create_m2m_pool env (start fs))))
      = [Ok app]
    /\ item2 app "UserPoolClient" "ClientId" = Ok client_id
    /\ item2 app "UserPoolClient" "ClientSecret" = Ok client_secret
    /\ files (snd (create_m2m_pool env (start fs))) !! "m2m_credentials.json"
       = Some (Json doc)
    /\ getitem doc "clientId" = Ok client_id
    /\ getitem doc "clientSecret" = Ok client_secret
    /\ getitem v "client_id" = Ok client_id
    /\ getitem v "client_secret" = Ok client_secret.
Proof.
  intros E Hv. pose proof (m2m_success fs) as O. unfold wp in O. rewrite E in O.
  destruct (O Hv) as (pool_id & resource_server_id & client_id & client_secret
                      & domain_name & pool & rq & server & app & earlier
                      & _ & _ & _ & A & _ & _ & CI & CS & F & ->).
  eexists app, client_id, client_secret, _.
  split; [exact A|]. split; [exact CI|]. split; [exact CS|].
  split; [rewrite F; apply lookup_written|].
  repeat split; reflexivity.
Qed.

(** C3.  When domain creation raises a provider error whose code is not
    [InvalidParameterException], [create_m2m_pool] returns [None] and does
    not raise; the run stops there: no request for the test user is sent
    and the credentials file is left as it was. *)
Theorem domain_error_aborts (fs : gmap string file_content)
    (rq : request) (code message : string) :
  In (rq, Err (ClientError code message)) (calls (snd (create_m2m_pool env (start fs)))) ->
  op rq = "create_user_pool_domain" ->
  code <> "InvalidParameterException" ->
  fst (create_m2m_pool env (start fs)) = Ok VNone
  /\ methods (calls (snd (create_m2m_pool env (start fs))))
     = ["create_user_pool"; "create_resource_server";
        "create_user_pool_client"; "create_user_pool_domain"]
  /\ files (snd (create_m2m_pool env (start fs))) !! "m2m_credentials.json"
     = fs !! "m2m_credentials.json".
Proof. exact (m2m_domain_error fs rq code message). Qed.



End Facts.

Import Demo.


(** The identifier of the record is read from the response: a provider
    that answers with another identifier than it was given is the one case
    in which the record does not carry the configured identifier. *)
Example identifier_read_from_response :
  exists v,
    fst (create_m2m_pool renamed_server_env (start no_files)) = Ok v
    /\ getitem v "resource_server_id" = Ok (VStr "urn:example:other-api").
Proof. eexists. split; [vm_compute; reflexivity | reflexivity]. Qed.

(** When [m2m_credentials.json] cannot be opened, the domain collision is
    tolerated and the two requests for the test user are sent and granted,
    but the result is [None]. *)
Example protected_credentials_give_none :
  only_failure "create_user_pool_domain" "InvalidParameterException"
    (calls (snd (create_m2m_pool protected_credentials_env (start no_files)))) = true
  /\ methods (calls (snd (create_m2m_pool protected_credentials_env (start no_files))))
     = ["create_user_pool"; "create_resource_server"; "create_user_pool_client";
        "create_user_pool_domain"; "admin_create_user"; "admin_set_user_password"]
  /\ fst (create_m2m_pool protected_credentials_env (start no_files)) = Ok VNone.
Proof. vm_compute. repeat split; reflexivity. Qed.

Lemma resource_server_id_and_scopes_witness :
  exists v doc,
    fst (create_m2m_pool plain_env (start no_files)) = Ok v
    /\ getitem v "resource_server_id" = Ok (VStr "https://api.myapp.com")
    /\ files (snd (create_m2m_pool plain_env (start no_files))) !! "m2m_credentials.json"
       = Some (Json doc)
    /\ getitem doc "scopes" = Ok qualified_scopes.
Proof.
  assert (E : exists v, fst (create_m2m_pool plain_env (start no_files)) = Ok v
                        /\ v <> VNone).
  { eexists. split; [vm_compute; reflexivity | discriminate]. }
  destruct E as (v & E & Hv).
  assert (Echo : echoes_identifier
                   (calls (snd (create_m2m_pool plain_env (start no_files))))).
  { intros rq server Hin. vm_compute in Hin.
    destruct Hin as [Hin|[]]. injection Hin as <- <-. reflexivity. }
  destruct (resource_server_id_and_scopes plain_env no_files v E Hv Echo)
    as (G & _ & doc & F & _ & Sc).
  exists v, doc. split; [exact E|]. split; [exact G|]. split; [exact F | exact Sc].
Defined.

Lemma client_credentials_unchanged_witness :
  exists v doc,
    fst (create_m2m_pool plain_env (start no_files)) = Ok v
    /\ files (snd (create_m2m_pool plain_env (start no_files))) !! "m2m_credentials.json"
       = Some (Json doc)
    /\ getitem doc "clientSecret" = getitem v "client_secret".
Proof.
  assert (E : exists v, fst (create_m2m_pool plain_env (start no_files)) = Ok v
                        /\ v <> VNone).
  { eexists. split; [vm_compute; reflexivity | discriminate]. }
  destruct E as (v & E & Hv).
  destruct (client_credentials_unchanged plain_env no_files v E Hv)
    as (app & id & secret & doc & _ & _ & _ & F & _ & D & _ & R).
  exists v, doc. split; [exact E|]. split; [exact F|]. now rewrite D, R.
Defined.

Lemma domain_error_aborts_witness :
  fst (create_m2m_pool domain_quota_env (start no_files)) = Ok VNone.
Proof.
  assert (Hin : In ({| via := {| service_name := "cognito-idp";
                                  region_name := VStr "us-west-2" |};
                       op := "create_user_pool_domain";
                       kwargs := [("Domain", VStr "m2m-domain-00123");
                                  ("UserPoolId", VStr "us-west-2_Ab12Cd34E")] |},
                     Err (ClientError "LimitExceededException" "Domain quota reached"))
                  (calls (snd (create_m2m_pool domain_quota_env (start no_files))))).
  { vm_compute. do 3 right. left. reflexivity. }
  assert (Hcode : "LimitExceededException" <> "InvalidParameterException")
    by discriminate.
  exact (proj1 (domain_error_aborts domain_quota_env no_files _ _ _ Hin eq_refl Hcode)).
Defined.



End M2MFacts.

(** ** Further properties: the helpers *)

Module HelperFacts.
Import Conduct.

Lemma extends_refl {A} (l : list A) : extends l l.
Proof. exists []. now rewrite app_nil_r. Qed.

Lemma extends_snoc {A} (l l' : list A) (x : A) : extends l l' -> extends l (l' ++ [x]).
Proof. intros [more ->]. exists (more ++ [x])%list. now rewrite app_assoc. Qed.

Lemma substring_all (s : string) (m : nat) :
  (String.length s <= m)%nat -> substring 0 m s = s.
Proof.
  revert m. induction s as [|c s IH]; intros m Hm.
  - now destruct m.
  - destruct m as [|m]; [simpl in Hm; inversion Hm|].
    simpl. f_equal. apply IH. simpl in Hm. now apply Nat.succ_le_mono.
Qed.

Lemma substring_drops (s : string) (k n : nat) :
  (String.length s - k <= n)%nat ->
  exists p, s = p ++ substring k n s
            /\ String.length (substring k n s) = (String.length s - k)%nat.
Proof.
  revert s. induction k as [|k IH]; intros s Hn.
  - exists EmptyString. rewrite Nat.sub_0_r in *.
    rewrite (substring_all s n Hn). split; reflexivity.
  - destruct s as [|c s].
    + exists EmptyString. now destruct n.
    + destruct (IH s Hn) as (p & Hp & Hl).
      exists (String c p). split; [rewrite Hp at 1; reflexivity | exact Hl].
Qed.

(** [s[-n:]] is the end of [s]: everything when [s] has at most [n]
    characters, its last [n] characters otherwise. *)
Lemma last_chars_suffix (n : nat) (s : string) :
  exists p, s = p ++ last_chars n s
            /\ String.length (last_chars n s) = Nat.min n (String.length s).
Proof.
  unfold last_chars.
  destruct (substring_drops s (String.length s - n) n) as (p & Hp & Hl); [lia|].
  exists p. split; [exact Hp|]. rewrite Hl. lia.
Qed.

Section Json.
Context `{Builtins}.

(** What [json.dump(v, f, default=str)] writes is always a JSON value, and
    it is [v] itself when [v] is one. *)
Lemma stringified_serialisable (v : pyval) : serialisable (stringified v) = true.
Proof.
  revert v. fix IH 1. intros [ | b | z | s | l | d | cls shown]; simpl; try reflexivity.
  - induction l as [|x l IHl]; simpl; [reflexivity|].
    rewrite IH. exact IHl.
  - induction d as [|[k x] d IHd]; simpl; [reflexivity|].
    rewrite IH. exact IHd.
Qed.

Lemma stringified_unchanged (v : pyval) : serialisable v = true -> stringified v = v.
Proof.
  revert v. fix IH 1. intros [ | b | z | s | l | d | cls shown]; simpl;
    try reflexivity; try discriminate.
  - intros Hl. f_equal. induction l as [|x l IHl]; simpl in *; [reflexivity|].
    apply andb_prop in Hl. destruct Hl as [Hx Hl].
    rewrite (IH x Hx). f_equal. exact (IHl Hl).
  - intros Hd. f_equal. induction d as [|[k x] d IHd]; simpl in *; [reflexivity|].
    apply andb_prop in Hd. destruct Hd as [Hx Hd].
    rewrite (IH x Hx). f_equal. exact (IHd Hd).
Qed.

End Json.

End HelperFacts.

(** ** Further properties: the token test *)

Module TokenTestFacts.
Import TokenTest Conduct HelperFacts.

Lemma wp_lift {A} (r : result A) (Q : result A -> world -> Prop) w :
  (forall a, r = Ok a -> Q (Ok a) w) ->
  (forall e, r = Err e -> Q (Err e) w) ->
  wp (lift r) Q w.
Proof. intros Hok Herr. unfold wp, lift. simpl. destruct r; [now apply Hok | now apply Herr]. Qed.

Ltac token_step :=
  lazymatch goal with
  | |- wp (lift _) _ _ =>
      let E := fresh "Got" in simple apply wp_lift; intros ? E
  | |- _ => wp_step
  end; tidy.

Section Facts.
Context `{Builtins}.
Variable net : web.

(** What a call of the token test can end with, once [requests] is
    imported. *)
Lemma token_test_run (domain_name client_id client_secret : pyval) (w : world) :
  wp (token_exchange net domain_name client_id client_secret)
    (fun r w' =>
       calls w' = calls w /\ files w' = files w /\ extends (stdout w) (stdout w')
       /\ exists v, r = Ok v
          /\ (v <> VNone ->
              exists response fields,
                post net (token_url domain_name)
                  (token_request_data client_id client_secret) token_request_headers
                = Ok response
                /\ status_code response = 200
                /\ json response = Ok v
                /\ v = VDict fields)
          /\ (forall response,
                post net (token_url domain_name)
                  (token_request_data client_id client_secret) token_request_headers
                = Ok response ->
                status_code response <> 200 ->
                v = VNone
                /\ last (stdout w')
                   = Some (nl ++ "❌ Failed to obtain token: "
                             ++ str_of_int (status_code response) ++ " - "
                             ++ text response)))
    w.
Proof.
  repeat token_step.
  all: split; [reflexivity|]; split; [reflexivity|].
  all: split; [repeat apply extends_snoc; apply extends_refl|].
  all: eexists; split; [reflexivity|].
  all: first [ apply Z.eqb_eq in Test
             | apply (proj1 (Z.eqb_neq _ _)) in Test
             | idtac ].
  all: split;
         [ first [ intros Hv; now destruct Hv
                 | intros _;
                   match goal with
                   | G : dict_get ?v _ _ = Ok _ |- _ =>
                       destruct v; try discriminate G
                   end;
                   eexists _, _; repeat split; eassumption ]
         | intros response' P' N';
           first [ congruence
                 | rewrite Got in P'; injection P' as <-; split;
                   [ reflexivity
                   | rewrite last_snoc; reflexivity ] ] ].
Qed.

(** X1.  An import of [requests] that fails leaves the token test with
    that exception, before anything is printed.  Once [requests] is
    imported, a POST that raises, and a 200 answer whose body
    [response.json()] cannot decode, are caught: the call returns [None]
    and prints one line, the error line with [str(e)]. *)
Theorem token_failures_caught
    (domain_name client_id client_secret : pyval) (w : world) :
  let run := test_client_credentials_flow net domain_name client_id client_secret w in
  let answer := post net (token_url domain_name)
                  (token_request_data client_id client_secret) token_request_headers in
  (forall e, import_requests net = Err e -> run = (Err e, w))
  /\ (forall e, import_requests net = Ok tt -> answer = Err e ->
        run = (Ok VNone,
               printed w [nl ++ "❌ Error testing token endpoint: " ++ exn_str e]))
  /\ (forall response e,
        import_requests net = Ok tt -> answer = Ok response ->
        status_code response = 200 -> json response = Err e ->
        run = (Ok VNone,
               printed w [nl ++ "❌ Error testing token endpoint: " ++ exn_str e])).
Proof.
  intros run answer. subst run answer.
  unfold test_client_credentials_flow, token_exchange, bind, lift, try_except.
  split; [|split].
  - intros e I. rewrite I. reflexivity.
  - intros e I P. rewrite I, P. reflexivity.
  - intros response e I P S J. rewrite I, P, S, J. reflexivity.
Qed.

(** X2.  When [requests] is imported, the token test returns something
    other than [None] only if the POST to the token endpoint of the domain
    answered with status 200 and a JSON body that is a dict, and what it
    returns is that body; the POST carries the client id and the client
    secret as they were passed. *)
Theorem token_only_from_200
    (domain_name client_id client_secret : pyval) (w : world) (v : pyval) :
  import_requests net = Ok tt ->
  fst (test_client_credentials_flow net domain_name client_id client_secret w) = Ok v ->
  v <> VNone ->
  exists response fields,
    post net (token_url domain_name) (token_request_data client_id client_secret)
      token_request_headers = Ok response
    /\ status_code response = 200
    /\ json response = Ok v
    /\ v = VDict fields
    /\ getitem (token_request_data client_id client_secret) "client_id" = Ok client_id
    /\ getitem (token_request_data client_id client_secret) "client_secret"
       = Ok client_secret.
Proof.
  intros I E Hv.
  pose proof (token_test_run domain_name client_id client_secret w) as R.
  unfold wp in R. unfold test_client_credentials_flow, bind, lift in E.
  rewrite I in E. fold (token_exchange net domain_name client_id client_secret w) in E. destruct R as (_ & _ & _ & v' & E' & Hok & _).
  rewrite E' in E. injection E as ->.
  destruct (Hok Hv) as (response & fields & P & S & J & D).
  exists response, fields. repeat split; assumption || reflexivity.
Qed.

(** X3.  When [requests] is imported and the token endpoint answers with a
    status other than 200, the token test returns [None], and the last
    line it prints reports the status and the body. *)
Theorem token_rejected
    (domain_name client_id client_secret : pyval) (w : world)
    (response : http_response) :
  import_requests net = Ok tt ->
  post net (token_url domain_name) (token_request_data client_id client_secret)
    token_request_headers = Ok response ->
  status_code response <> 200 ->
  fst (test_client_credentials_flow net domain_name client_id client_secret w)
  = Ok VNone
  /\ last (stdout (snd (test_client_credentials_flow net domain_name client_id
                          client_secret w)))
     = Some (nl ++ "❌ Failed to obtain token: "
               ++ str_of_int (status_code response) ++ " - " ++ text response).
Proof.
  intros I P S.
  pose proof (token_test_run domain_name client_id client_secret w) as R.
  unfold wp in R. unfold test_client_credentials_flow, bind, lift.
  rewrite I. destruct R as (_ & _ & _ & v' & E' & _ & Hno).
  destruct (Hno response P S) as [-> L]. split; [exact E' | exact L].
Qed.

End Facts.

Import Demo.

Lemma token_failures_caught_witness :
  test_client_credentials_flow not_installed (VStr "m2m-domain-00123")
    (VStr "4h57ov2kq1example") (VStr "s3cr3t-example") (start Demo.no_files)
  = (Err (OtherError "ModuleNotFoundError" "No module named 'requests'"),
     start Demo.no_files)
  /\ fst (test_client_credentials_flow unreachable (VStr "m2m-domain-00123")
            (VStr "4h57ov2kq1example") (VStr "s3cr3t-example") (start Demo.no_files))
     = Ok VNone
  /\ fst (test_client_credentials_flow not_json (VStr "m2m-domain-00123")
            (VStr "4h57ov2kq1example") (VStr "s3cr3t-example") (start Demo.no_files))
     = Ok VNone.
Proof.
  split; [|split].
  - exact (proj1 (token_failures_caught not_installed (VStr "m2m-domain-00123")
                    (VStr "4h57ov2kq1example") (VStr "s3cr3t-example")
                    (start Demo.no_files)) _ eq_refl).
  - exact (f_equal fst
             (proj1 (proj2 (token_failures_caught unreachable (VStr "m2m-domain-00123")
                              (VStr "4h57ov2kq1example") (VStr "s3cr3t-example")
                              (start Demo.no_files))) _ eq_refl eq_refl)).
  - exact (f_equal fst
             (proj2 (proj2 (token_failures_caught not_json (VStr "m2m-domain-00123")
                              (VStr "4h57ov2kq1example") (VStr "s3cr3t-example")
                              (start Demo.no_files))) _ _ eq_refl eq_refl eq_refl
                eq_refl)).
Defined.

Lemma token_only_from_200_witness :
  exists fields,
    fst (test_client_credentials_flow issuing (VStr "m2m-domain-00123")
           (VStr "4h57ov2kq1example") (VStr "s3cr3t-example") (start Demo.no_files))
    = Ok (VDict fields).
Proof.
  assert (E : exists v, fst (test_client_credentials_flow issuing
                               (VStr "m2m-domain-00123") (VStr "4h57ov2kq1example")
                               (VStr "s3cr3t-example") (start Demo.no_files)) = Ok v
                        /\ v <> VNone).
  { eexists. split; [vm_compute; reflexivity | discriminate]. }
  destruct E as (v & E & Hv).
  destruct (token_only_from_200 issuing _ _ _ _ v eq_refl E Hv)
    as (response & fields & _ & _ & _ & -> & _).
  exists fields. exact E.
Defined.

Lemma token_rejected_witness :
  fst (test_client_credentials_flow rejecting (VStr "m2m-domain-00123")
         (VStr "4h57ov2kq1example") (VStr "wrong") (start Demo.no_files))
  = Ok VNone.
Proof.
  assert (S : status_code {| status_code := 400; text := "invalid_client";
                             json := Ok (VDict [("error", VStr "invalid_client")]) |}
              <> 200) by discriminate.
  exact (proj1 (token_rejected rejecting (VStr "m2m-domain-00123")
                  (VStr "4h57ov2kq1example") (VStr "wrong") (start Demo.no_files)
                  _ eq_refl eq_refl S)).
Defined.

End TokenTestFacts.

(** ** Further properties of user_cognito_setup.py *)

Module UserPoolMore.
Import UserPool UserPoolObserve Conduct HelperFacts.

Lemma wp_of_run {A} (m : M A) (Q : result A -> world -> Prop) w r w' :
  m w = (r, w') -> Q r w' -> wp m Q w.
Proof. intros E q. unfold wp. now rewrite E. Qed.

Section Facts.
Context `{Builtins}.
Variable env : environment.

Lemma create_user_run (c : client) (pool_id : pyval)
    (username temp_password permanent_password : string) (w : world) :
  wp (create_user env c pool_id username temp_password permanent_password)
    (fun r w' =>
       files w' = files w
       /\ extends (stdout w) (stdout w')
       /\ match r with
          | Ok _ =>
              exists created set,
                calls w' = (calls w
                            ++ [(create_user_request c pool_id username temp_password,
                                 Ok created);
                                (set_password_request c pool_id username
                                   permanent_password, Ok set)])%list
          | Err e =>
              calls w' = (calls w
                          ++ [(create_user_request c pool_id username temp_password,
                               Err e)])%list
              \/ exists created,
                   calls w' = (calls w
                               ++ [(create_user_request c pool_id username
                                      temp_password, Ok created);
                                   (set_password_request c pool_id username
                                      permanent_password, Err e)])%list
          end)
    w.
Proof.
  repeat wp_step.
  all: split; [reflexivity|].
  all: split; [repeat apply extends_snoc; apply extends_refl|].
  all: try subst.
  all: first [ left; reflexivity
             | right; eexists; rewrite <- app_assoc; reflexivity
             | eexists _, _; rewrite <- app_assoc; reflexivity ].
Qed.

(** X4.  [create_user] sends [admin_create_user] with the temporary
    password, and [admin_set_user_password] with the permanent password
    only after the first was granted.  It raises the exception of the
    request that failed, whatever its code; when the second request fails
    the user stays created with its temporary password.  It writes no
    file. *)
Theorem create_user_outcomes (c : client) (pool_id : pyval)
    (username temp_password permanent_password : string) (w : world) :
  let run := create_user env c pool_id username temp_password permanent_password w in
  let create := create_user_request c pool_id username temp_password in
  let set_password := set_password_request c pool_id username permanent_password in
  files (snd run) = files w
  /\ match fst run with
     | Ok _ =>
         exists created set,
           calls (snd run) = (calls w ++ [(create, Ok created); (set_password, Ok set)])%list
     | Err e =>
         calls (snd run) = (calls w ++ [(create, Err e)])%list
         \/ exists created,
              calls (snd run)
              = (calls w ++ [(create, Ok created); (set_password, Err e)])%list
     end.
Proof.
  intros run create set_password.
  destruct (create_user_run c pool_id username temp_password permanent_password w)
    as (F & _ & C).
  split; [exact F | exact C].
Qed.

Lemma authenticate_user_run (c : client) (client_id : pyval)
    (username password : string) (w : world) :
  wp (authenticate_user env c client_id username password)
    (fun r w' =>
       let rq := authenticate_request c client_id username password in
       let o := provider env (calls w) rq in
       calls w' = (calls w ++ [(rq, o)])%list
       /\ files w' = files w
       /\ r = match o with
              | Ok response => item2 response "AuthenticationResult" "AccessToken"
              | Err e => Err e
              end
       /\ stdout w'
          = (stdout w
             ++ match r with
                | Ok _ => [("Successfully authenticated user: " ++ username)%string]
                | Err (ClientError code message) =>
                    [("Error authenticating user " ++ username ++ ": "
                        ++ exn_str (ClientError code message))%string]
                | Err _ => []
                end)%list)
    w.
Proof.
  destruct w as [past out fs].
  repeat wp_step.
  all: try subst.
  all: unfold authenticate_request, item2; cbv zeta; tidy.
  all: repeat match goal with
              | A : provider _ _ _ = _ |- _ =>
                  cbv beta iota delta [calls] in A; rewrite A; clear A
              end.
  all: use_items.
  all: repeat match goal with
              | R : other_exception ?e |- _ => destruct e; try destruct R
              end.
  all: repeat split; try reflexivity.
  all: symmetry; apply app_nil_r.
Qed.

(** X5.  [authenticate_user] sends one [initiate_auth] request for the
    password flow and returns [response['AuthenticationResult']['AccessToken']];
    it raises what the provider raised, or what the lookup raised when the
    response has no token.  It prints its error line for a provider error
    only: a response without a token raises without a line of this
    function. *)
Theorem authenticate_user_outcome (c : client) (client_id : pyval)
    (username password : string) (w : world) :
  let rq := authenticate_request c client_id username password in
  let run := authenticate_user env c client_id username password w in
  calls (snd run) = (calls w ++ [(rq, provider env (calls w) rq)])%list
  /\ fst run = match provider env (calls w) rq with
               | Ok response => item2 response "AuthenticationResult" "AccessToken"
               | Err e => Err e
               end
  /\ stdout (snd run)
     = (stdout w
        ++ match fst run with
           | Ok _ => [("Successfully authenticated user: " ++ username)%string]
           | Err (ClientError code message) =>
               [("Error authenticating user " ++ username ++ ": "
                   ++ exn_str (ClientError code message))%string]
           | Err _ => []
           end)%list.
Proof.
  intros rq run.
  destruct (authenticate_user_run c client_id username password w) as (C & _ & R & S).
  split; [exact C|]. split; [exact R | exact S].
Qed.

Ltac sent_entry Hin :=
  let Hrq := fresh "Hrq" in
  pose proof (f_equal fst Hin) as Hrq; cbn [fst] in Hrq; rewrite <- Hrq; reflexivity.

Ltac drop_answers :=
  repeat match goal with
         | A : provider _ _ _ = _ |- _ => clear A
         end.

Ltac refused_entry Hin :=
  let Ho := fresh "Ho" in
  let Hrq := fresh "Hrq" in
  pose proof (f_equal snd Hin) as Ho; cbn [snd] in Ho;
  first
    [ discriminate Ho
    | injection Ho as Ho;
      pose proof (f_equal fst Hin) as Hrq; cbn [fst] in Hrq; subst;
      split; reflexivity ].

(** How [create_spa_pool] conducts a run, for the region [get_aws_region]
    gives. *)
Lemma spa_conduct (fs : gmap string file_content) (region : pyval) :
  fst (get_aws_region env (start fs)) = Ok region ->
  wp (create_spa_pool env)
    (fun r w' =>
       files w' = fs
       /\ (forall rq o, In (rq, o) (calls w') ->
             via rq = {| service_name := "cognito-idp"; region_name := region |})
       /\ (forall rq e, In (rq, Err e) (calls w') ->
             r = Err e /\ last (calls w') = Some (rq, Err e))
       /\ (forall e, r = Err e ->
             last (stdout w') = Some ("Setup failed: " ++ exn_str e)
             \/ (make_client env {| service_name := "cognito-idp"; region_name := region |}
                 = Err e
                 /\ calls w' = []))
       /\ (forall config, r = Ok config ->
             exists pool_id client_id token1 token2,
               config = spa_config pool_id client_id region token1 token2))
    (start fs).
Proof.
  intros Hregion.
  destruct (UserPoolFacts.get_aws_region_run env (start fs)) as (s & lines & E & _).
  rewrite E in Hregion. injection Hregion as <-.
  unfold create_spa_pool.
  simple apply wp_bind. apply (wp_of_run _ _ _ _ _ E).
  unfold printed, start. tidy.
  repeat wp_step.
  all: drop_answers.
  all: split; [reflexivity|].
  all: split;
         [ intros rq o Hin; cbn [app In] in Hin;
           repeat (destruct Hin as [Hin|Hin];
                   [sent_entry Hin|]);
           destruct Hin |].
  all: split;
         [ intros rq e0 Hin; cbn [app In] in Hin;
           repeat (destruct Hin as [Hin|Hin];
                   [refused_entry Hin|]);
           destruct Hin |].
  all: split;
         [ first [ intros e0 [= <-]; left; apply last_snoc
                 | intros e0 [= <-]; right; split; [assumption | reflexivity]
                 | intros e0; discriminate ] |].
  all: first [ intros config; discriminate
             | intros config [= <-]; eexists _, _, _, _; reflexivity ].
Qed.

(** X6.  [create_spa_pool] sends every request through a [cognito-idp]
    client of the region [get_aws_region] resolved; the record it returns
    carries that region, and its discovery URL is built from that region
    and the pool id of the record.  It writes no file. *)
Theorem spa_uses_resolved_region (fs : gmap string file_content) (region : pyval) :
  fst (get_aws_region env (start fs)) = Ok region ->
  let run := create_spa_pool env (start fs) in
  files (snd run) = fs
  /\ (forall rq o, In (rq, o) (calls (snd run)) ->
        via rq = {| service_name := "cognito-idp"; region_name := region |})
  /\ (forall config, fst run = Ok config ->
        exists pool_id,
          getitem config "region" = Ok region
          /\ getitem config "pool_id" = Ok pool_id
          /\ getitem config "discovery_url"
             = Ok (VStr ("https://cognito-idp." ++ py_str region ++ ".amazonaws.com/"
                           ++ py_str pool_id ++ "/.well-known/openid-configuration"))).
Proof.
  intros Hregion run.
  destruct (spa_conduct fs region Hregion) as (F & V & _ & _ & C).
  split; [exact F|]. split; [exact V|].
  intros config E. destruct (C config E) as (pool_id & client_id & t1 & t2 & ->).
  exists pool_id. repeat split; reflexivity.
Qed.

(** X7.  When the provider refuses a request of [create_spa_pool], with
    whatever error code, that request is the last one sent, the exception
    that leaves [create_spa_pool] is the provider's own, and the last line
    printed is [Setup failed:] with that exception: an existing user name
    is not tolerated here. *)
Theorem spa_failure_propagates (fs : gmap string file_content)
    (rq : request) (e : exn) :
  let run := create_spa_pool env (start fs) in
  In (rq, Err e) (calls (snd run)) ->
  fst run = Err e
  /\ last (calls (snd run)) = Some (rq, Err e)
  /\ last (stdout (snd run)) = Some ("Setup failed: " ++ exn_str e).
Proof.
  intros run Hin.
  destruct (UserPoolFacts.get_aws_region_run env (start fs)) as (s & lines & E & _).
  assert (Hregion : fst (get_aws_region env (start fs)) = Ok (VStr s)) by now rewrite E.
  destruct (spa_conduct fs _ Hregion) as (_ & _ & R & L & _).
  destruct (R rq e Hin) as [Er La].
  split; [exact Er|]. split; [exact La|].
  destruct (L e Er) as [Line|[_ None]]; [exact Line|].
  unfold run in Hin. rewrite None in Hin. destruct Hin.
Qed.

End Facts.

Import Demo.

Lemma spa_uses_resolved_region_witness :
  exists config,
    fst (create_spa_pool override_env (start no_files)) = Ok config
    /\ getitem config "region" = Ok (VStr "ap-south-1")
    /\ getitem config "discovery_url"
       = Ok (VStr ("https://cognito-idp.ap-south-1.amazonaws.com/us-west-2_Ab12Cd34E"
                     ++ "/.well-known/openid-configuration")).
Proof.
  assert (Hregion : fst (get_aws_region override_env (start no_files))
                    = Ok (VStr "ap-south-1")).
  { vm_compute. reflexivity. }
  assert (E : exists config, fst (create_spa_pool override_env (start no_files)) = Ok config).
  { eexists. vm_compute. reflexivity. }
  destruct E as (config & E).
  destruct (proj2 (proj2 (spa_uses_resolved_region override_env no_files _ Hregion))
              config E) as (pool_id & R & P & D).
  exists config. split; [exact E|]. split; [exact R|].
  rewrite D. vm_compute in E. injection E as <-. vm_compute in P. injection P as <-.
  reflexivity.
Defined.

Lemma spa_failure_propagates_witness :
  fst (create_spa_pool
         (env_of ∅ (Ok None)
            (refusing_user "testuser1" "UsernameExistsException" "User account already exists"))
         (start no_files))
  = Err (ClientError "UsernameExistsException" "User account already exists").
Proof.
  assert (Hin : In ({| via := {| service_name := "cognito-idp";
                                  region_name := VStr "us-east-1" |};
                       op := "admin_create_user";
                       kwargs := [("UserPoolId", VStr "us-west-2_Ab12Cd34E");
                                  ("Username", VStr "testuser1");
                                  ("TemporaryPassword", VStr "Temp123!");
                                  ("MessageAction", VStr "SUPPRESS")] |},
                     Err (ClientError "UsernameExistsException"
                            "User account already exists"))
                  (calls (snd (create_spa_pool
                                 (env_of ∅ (Ok None)
                                    (refusing_user "testuser1" "UsernameExistsException"
                                       "User account already exists"))
                                 (start no_files))))).
  { vm_compute. do 2 right. left. reflexivity. }
  exact (proj1 (spa_failure_propagates _ no_files _ _ Hin)).
Defined.

End UserPoolMore.

(** ** Further properties of m2m_cognito_setup.py *)

Module M2MMore.
Import M2M M2MObserve Conduct HelperFacts.

Lemma lookup_unwritten (name key : string) (c : file_content)
    (fs : gmap string file_content) :
  ~ In name written_files -> In key written_files ->
  <[ key := c ]> fs !! name = fs !! name.
Proof. intros N K. apply lookup_insert_ne. intros ->. exact (N K). Qed.

Ltac sent_entry Hin :=
  let Hrq := fresh "Hrq" in
  pose proof (f_equal fst Hin) as Hrq; cbn [fst] in Hrq; rewrite <- Hrq; reflexivity.

Ltac drop_answers :=
  repeat match goal with
         | A : provider _ _ _ = _ |- _ => clear A
         end.

(** An entry of the trace that is a failure: the one the run stopped at,
    or one the run went on after. *)
Ltac failed_entry Hin Htol :=
  let Ho := fresh "Ho" in
  let Hrq := fresh "Hrq" in
  pose proof (f_equal snd Hin) as Ho; cbn [snd] in Ho;
  first
    [ discriminate Ho
    | injection Ho as Ho;
      pose proof (f_equal fst Hin) as Hrq; cbn [fst] in Hrq; subst;
      first
        [ split; reflexivity
        | exfalso; unfold tolerated in Htol; simpl in Htol;
          repeat match goal with
                 | T : String.eqb _ _ = true |- _ => rewrite T in Htol; clear T
                 end;
          simpl in Htol; discriminate Htol ] ].

Section Facts.
Context `{Builtins}.
Variable env : environment.

(** How [create_m2m_pool] conducts a run, whatever the provider does. *)
Lemma m2m_conduct (out : list string) (fs : gmap string file_content) :
  wp (create_m2m_pool env)
    (fun r w' =>
       ((make_client env m2m_client = Ok tt
         /\ (r = Ok VNone
             \/ exists pool_id client_id client_secret domain_name resource_server_id,
                  r = Ok (VDict [("pool_id", pool_id);
                                 ("client_id", client_id);
                                 ("client_secret", client_secret);
                                 ("domain_name", VStr domain_name);
                                 ("resource_server_id", resource_server_id)])))
        \/ (exists e, make_client env m2m_client = Err e
                      /\ r = Err e /\ w' = begun out fs))
       /\ extends out (stdout w')
       /\ (forall name, ~ In name written_files -> files w' !! name = fs !! name)
       /\ extends (methods (calls w')) request_order
       /\ (forall rq o, In (rq, o) (calls w') -> via rq = m2m_client)
       /\ (forall rq e, In (rq, Err e) (calls w') -> tolerated rq e = false ->
             r = Ok VNone /\ last (calls w') = Some (rq, Err e)))
    (begun out fs).
Proof.
  unfold begun.
  repeat wp_step.
  all: drop_answers.
  all: split;
         [ first [ left; split; [exact Built|];
                   first [left; reflexivity | right; eexists _, _, _, _, _; reflexivity]
                 | right; eexists; split; [exact Built | split; reflexivity] ] |].
  all: split; [repeat apply extends_snoc; apply extends_refl|].
  all: split;
         [ intros ? N;
           rewrite ?lookup_unwritten by first [exact N | simpl; auto 6];
           reflexivity |].
  all: split; [cbn [methods map app fst op]; eexists; reflexivity|].
  all: split;
         [ intros ? ? Hin; cbn [app In] in Hin;
           repeat (destruct Hin as [Hin|Hin]; [sent_entry Hin|]);
           destruct Hin |].
  all: intros ? ? Hin Htol; cbn [app In] in Hin;
       repeat (destruct Hin as [Hin|Hin]; [failed_entry Hin Htol|]);
       destruct Hin.
Qed.

(** A run that returns a record: what was sent and what was written. *)
Lemma m2m_record (fs : gmap string file_content) :
  wp (create_m2m_pool env)
    (fun r w' =>
       match r with
       | Ok v =>
           v <> VNone ->
           exists pool server app rq_server rq_client rq_domain o_domain pool_id doc,
             outcomes "create_user_pool" (calls w') = [Ok pool]
             /\ item2 pool "UserPool" "Id" = Ok pool_id
             /\ entries "create_resource_server" (calls w') = [(rq_server, Ok server)]
             /\ entries "create_user_pool_client" (calls w') = [(rq_client, Ok app)]
             /\ entries "create_user_pool_domain" (calls w') = [(rq_domain, o_domain)]
             /\ kwarg "Domain" rq_domain
                = VStr ("m2m-domain-" ++ last_chars 5 (str_of_int (unix_time env)))
             /\ getitem v "domain_name" = Ok (kwarg "Domain" rq_domain)
             /\ (forall rq o, In (rq, o) (calls w') -> op rq <> "create_user_pool" ->
                   kwarg "UserPoolId" rq = pool_id)
             /\ getitem v "pool_id" = Ok pool_id
             /\ declared_scopes rq_server = ["read"; "write"; "admin"]
             /\ kwarg "AllowedOAuthScopes" rq_client
                = qualify (kwarg "Identifier" rq_server) (declared_scopes rq_server)
             /\ getitem doc "scopes" = Ok (kwarg "AllowedOAuthScopes" rq_client)
             /\ getitem doc "userPoolId" = Ok pool_id
             /\ getitem doc "region" = Ok (VStr REGION)
             /\ files w' = <[ "m2m_credentials.json" := Json doc ]>
                             (<[ "m2m_client.json" := Json (stringified app) ]>
                                (<[ "resource_server.json" := Json (stringified server) ]>
                                   (<[ "pool.json" := Json (stringified pool) ]> fs)))
       | Err _ => True
       end)
    (start fs).
Proof.
  unfold start.
  repeat wp_step.
  all: drop_answers.
  all: lazymatch goal with
       | |- True => exact I
       | |- VNone <> VNone -> _ => intros Hv; now destruct Hv
       | |- _ => intros _
       end.
  all: merge_items; eexists _, _, _, _, _, _, _, _, _.
  all: split; [reflexivity|].
  all: split; [unfold item2; use_items; reflexivity|].
  all: do 5 (split; [reflexivity|]).
  all: split;
         [ intros ? ? Hin Hop; cbn [app In] in Hin;
           repeat (destruct Hin as [Hin|Hin];
                   [ let Hrq := fresh "Hrq" in
                     pose proof (f_equal fst Hin) as Hrq; cbn [fst] in Hrq;
                     rewrite <- Hrq in Hop |- *;
                     first [reflexivity | now destruct Hop] |]);
           destruct Hin |].
  all: repeat split; reflexivity.
Qed.

(** X8.  [create_m2m_pool] raises only when [boto3.client] raises, which
    is called before the [try]: the exception is that one, and nothing was
    printed, requested or written.  Once the client is built, every
    failure of a request, of a lookup or of a file is caught, and the run
    returns either [None] or a dict with exactly the keys [pool_id],
    [client_id], [client_secret], [domain_name] and [resource_server_id],
    in this order. *)
Theorem m2m_raises_only_without_client (fs : gmap string file_content) :
  match make_client env m2m_client with
  | Err e => create_m2m_pool env (start fs) = (Err e, start fs)
  | Ok _ =>
      fst (create_m2m_pool env (start fs)) = Ok VNone
      \/ exists record,
           fst (create_m2m_pool env (start fs)) = Ok (VDict record)
           /\ map fst record = ["pool_id"; "client_id"; "client_secret"; "domain_name";
                                "resource_server_id"]
  end.
Proof.
  pose proof (m2m_conduct [] fs) as C. unfold wp in C.
  change (begun [] fs) with (start fs) in C.
  destruct (create_m2m_pool env (start fs)) as [r w']. cbn [fst snd] in C |- *.
  destruct C as ([[B [E|(a & b & c & d & e & E)]]|(e & B & E & W)] & _); rewrite B.
  - left. exact E.
  - right. eexists. split; [exact E | reflexivity].
  - now rewrite E, W.
Qed.

(** X9.  Whatever happens, [create_m2m_pool] writes no other file than
    [pool.json], [resource_server.json], [m2m_client.json] and
    [m2m_credentials.json]: every other file of the working directory is
    as it was. *)
Theorem m2m_writes_only_its_files (fs : gmap string file_content) (name : string) :
  ~ In name written_files ->
  files (snd (create_m2m_pool env (start fs))) !! name = fs !! name.
Proof.
  intros N. destruct (m2m_conduct [] fs) as (_ & _ & F & _). exact (F name N).
Qed.

(** X10.  Whatever happens, the requests of [create_m2m_pool] go through
    the [cognito-idp] client of [us-west-2], and the methods requested are
    a beginning of: pool, resource server, client, domain, test user,
    password of the test user; no method is requested twice and none out
    of this order. *)
Theorem m2m_request_order (fs : gmap string file_content) :
  extends (methods (calls (snd (create_m2m_pool env (start fs))))) request_order
  /\ forall rq o, In (rq, o) (calls (snd (create_m2m_pool env (start fs)))) ->
                  via rq = m2m_client.
Proof.
  destruct (m2m_conduct [] fs) as (_ & _ & _ & O & V & _). split; [exact O | exact V].
Qed.

(** X11.  A request of [create_m2m_pool] that fails is the last one sent
    and makes the run return [None], unless the failure is one of those
    tolerated: [InvalidParameterException] from domain creation, or
    [UsernameExistsException] from one of the two requests for the test
    user.  The same codes from any other request, and every exception
    that is not a provider error, end the run. *)
Theorem m2m_untolerated_failure_ends_run (fs : gmap string file_content)
    (rq : request) (e : exn) :
  In (rq, Err e) (calls (snd (create_m2m_pool env (start fs)))) ->
  tolerated rq e = false ->
  fst (create_m2m_pool env (start fs)) = Ok VNone
  /\ last (calls (snd (create_m2m_pool env (start fs)))) = Some (rq, Err e).
Proof.
  destruct (m2m_conduct [] fs) as (_ & _ & _ & _ & _ & T). exact (T rq e).
Qed.

(** X12.  The block of the script run as a program prints the start
    banner and runs [create_m2m_pool].  When [boto3.client] raises, the
    block raises that exception after the start banner and the process
    exits with status 1.  Otherwise the block does not raise, so the
    process exits with status 0 even when the setup failed; it ends with
    the success banner when a record came back and with the failure banner
    when [None] came back. *)
Theorem m2m_main_outcome (fs : gmap string file_content) :
  let inner := create_m2m_pool env (printed (start fs) [start_banner]) in
  match make_client env m2m_client with
  | Err e =>
      main env (start fs) = (Err e, printed (start fs) [start_banner])
      /\ exit_status (fst (main env (start fs))) = 1
  | Ok _ =>
      ((fst inner = Ok VNone
        /\ main env (start fs) = (Ok tt, printed (snd inner) [failure_banner]))
       \/ (exists record,
             fst inner = Ok (VDict record) /\ record <> []
             /\ main env (start fs) = (Ok tt, printed (snd inner) [success_banner])))
      /\ exit_status (fst (main env (start fs))) = 0
  end
  /\ exists lines, stdout (snd (main env (start fs))) = start_banner :: lines.
Proof.
  intros inner.
  pose proof (m2m_conduct [start_banner] fs) as C. unfold wp in C.
  change (create_m2m_pool env (begun [start_banner] fs)) with inner in C.
  destruct C as (R & [more S] & _).
  assert (E : main env (start fs)
              = match fst inner with
                | Ok VNone => (Ok tt, printed (snd inner) [failure_banner])
                | Ok _ => (Ok tt, printed (snd inner) [success_banner])
                | Err e => (Err e, snd inner)
                end).
  { unfold main, bind.
    change (print _ (start fs)) with (Ok tt, printed (start fs) [start_banner]).
    cbv beta iota. fold inner. destruct inner as [r w'] eqn:Ei. cbn [fst snd] in *.
    destruct R as [[_ [->|(a & b & c & d & e & ->)]]|(e & _ & -> & _)]; reflexivity. }
  rewrite E.
  destruct R as [[B [R|(a & b & c & d & e & R)]]|(e & B & R & W)]; rewrite B, R.
  - split; [split; [left; split; reflexivity | reflexivity]|].
    cbn [snd printed stdout]. rewrite S. eexists. reflexivity.
  - split; [split; [right; eexists; split; [reflexivity|];
                    split; [discriminate | reflexivity] | reflexivity]|].
    cbn [snd printed stdout]. rewrite S. eexists. reflexivity.
  - rewrite W. split; [split; reflexivity|]. eexists. reflexivity.
Qed.

(** X13.  In a run that returns a record, [pool.json],
    [resource_server.json] and [m2m_client.json] hold the three responses
    with every value that is not JSON replaced by its [str()]: each file
    holds a JSON document, and the response itself when the response is
    JSON. *)
Theorem raw_responses_persisted (fs : gmap string file_content) (v : pyval) :
  fst (create_m2m_pool env (start fs)) = Ok v -> v <> VNone ->
  let t := calls (snd (create_m2m_pool env (start fs))) in
  let written := files (snd (create_m2m_pool env (start fs))) in
  forall method name,
    In (method, name) [("create_user_pool", "pool.json");
                       ("create_resource_server", "resource_server.json");
                       ("create_user_pool_client", "m2m_client.json")] ->
    exists response doc,
      outcomes method t = [Ok response]
      /\ written !! name = Some (Json doc)
      /\ doc = stringified response
      /\ serialisable doc = true
      /\ (serialisable response = true -> doc = response).
Proof.
  intros E Hv t written method name Hin.
  pose proof (m2m_record fs) as R. unfold wp in R. rewrite E in R.
  destruct (R Hv) as (pool & server & app & rq_server & rq_client & rq_domain
                      & o_domain & pool_id & doc & P & _ & S & A & _ & _ & _ & _ & _
                      & _ & _ & _ & _ & _ & F).
  subst t written. rewrite F. clear F R E.
  assert (S' : outcomes "create_resource_server"
                 (calls (snd (create_m2m_pool env (start fs)))) = [Ok server])
    by (unfold outcomes; now rewrite S).
  assert (A' : outcomes "create_user_pool_client"
                 (calls (snd (create_m2m_pool env (start fs)))) = [Ok app])
    by (unfold outcomes; now rewrite A).
  simpl in Hin. destruct Hin as [[= <- <-]|[[= <- <-]|[[= <- <-]|[]]]].
  - exists pool, (stringified pool). split; [exact P|].
    split; [now rewrite !lookup_insert_ne, lookup_insert_eq by discriminate|].
    split; [reflexivity|].
    split; [apply stringified_serialisable | apply stringified_unchanged].
  - exists server, (stringified server). split; [exact S'|].
    split; [now rewrite !lookup_insert_ne, lookup_insert_eq by discriminate|].
    split; [reflexivity|].
    split; [apply stringified_serialisable | apply stringified_unchanged].
  - exists app, (stringified app). split; [exact A'|].
    split; [now rewrite !lookup_insert_ne, lookup_insert_eq by discriminate|].
    split; [reflexivity|].
    split; [apply stringified_serialisable | apply stringified_unchanged].
Qed.

(** X14.  In a run that returns a record, the [domain_name] of the record
    is the name sent in the one request for a domain: [m2m-domain-]
    followed by the end of the decimal form of the time, five characters
    of it or all of it when it is shorter. *)
Theorem domain_name_of_record (fs : gmap string file_content) (v : pyval) :
  fst (create_m2m_pool env (start fs)) = Ok v -> v <> VNone ->
  exists rq o before suffix,
    entries "create_user_pool_domain" (calls (snd (create_m2m_pool env (start fs))))
    = [(rq, o)]
    /\ kwarg "Domain" rq = VStr ("m2m-domain-" ++ suffix)
    /\ getitem v "domain_name" = Ok (VStr ("m2m-domain-" ++ suffix))
    /\ str_of_int (unix_time env) = before ++ suffix
    /\ String.length suffix = Nat.min 5 (String.length (str_of_int (unix_time env))).
Proof.
  intros E Hv.
  pose proof (m2m_record fs) as R. unfold wp in R. rewrite E in R.
  destruct (R Hv) as (pool & server & app & rq_server & rq_client & rq_domain
                      & o_domain & pool_id & doc & _ & _ & _ & _ & D & K & G & _).
  destruct (last_chars_suffix 5 (str_of_int (unix_time env))) as (before & B & L).
  exists rq_domain, o_domain, before, (last_chars 5 (str_of_int (unix_time env))).
  split; [exact D|]. split; [exact K|]. split; [now rewrite G, K|].
  split; [exact B | exact L].
Qed.

(** X15.  In a run that returns a record, the pool id read from the
    response to [create_user_pool] is the [UserPoolId] of every later
    request, the [pool_id] of the record and the [userPoolId] of the
    credentials document, whose [region] is [us-west-2]. *)
Theorem pool_id_threaded (fs : gmap string file_content) (v : pyval) :
  fst (create_m2m_pool env (start fs)) = Ok v -> v <> VNone ->
  exists pool pool_id doc,
    outcomes "create_user_pool" (calls (snd (create_m2m_pool env (start fs))))
    = [Ok pool]
    /\ item2 pool "UserPool" "Id" = Ok pool_id
    /\ (forall rq o, In (rq, o) (calls (snd (create_m2m_pool env (start fs)))) ->
          op rq <> "create_user_pool" -> kwarg "UserPoolId" rq = pool_id)
    /\ getitem v "pool_id" = Ok pool_id
    /\ files (snd (create_m2m_pool env (start fs))) !! "m2m_credentials.json"
       = Some (Json doc)
    /\ getitem doc "userPoolId" = Ok pool_id
    /\ getitem doc "region" = Ok (VStr "us-west-2").
Proof.
  intros E Hv.
  pose proof (m2m_record fs) as R. unfold wp in R. rewrite E in R.
  destruct (R Hv) as (pool & server & app & rq_server & rq_client & rq_domain
                      & o_domain & pool_id & doc & P & I & _ & _ & _ & _ & _ & U & G
                      & _ & _ & _ & DU & DR & F).
  exists pool, pool_id, doc.
  split; [exact P|]. split; [exact I|]. split; [exact U|]. split; [exact G|].
  split; [rewrite F; apply lookup_insert_eq|]. split; [exact DU | exact DR].
Qed.

(** X16.  In a run that returns a record, the scopes the client is
    allowed are the scopes the resource-server request declared ([read],
    [write], [admin]), each qualified by the identifier of that request,
    in the same order; and they are the [scopes] of the credentials
    document. *)
Theorem client_scopes_are_declared (fs : gmap string file_content) (v : pyval) :
  fst (create_m2m_pool env (start fs)) = Ok v -> v <> VNone ->
  exists rq_server server rq_client app doc,
    entries "create_resource_server" (calls (snd (create_m2m_pool env (start fs))))
    = [(rq_server, Ok server)]
    /\ entries "create_user_pool_client" (calls (snd (create_m2m_pool env (start fs))))
       = [(rq_client, Ok app)]
    /\ declared_scopes rq_server = ["read"; "write"; "admin"]
    /\ kwarg "AllowedOAuthScopes" rq_client
       = qualify (kwarg "Identifier" rq_server) (declared_scopes rq_server)
    /\ files (snd (create_m2m_pool env (start fs))) !! "m2m_credentials.json"
       = Some (Json doc)
    /\ getitem doc "scopes" = Ok (kwarg "AllowedOAuthScopes" rq_client).
Proof.
  intros E Hv.
  pose proof (m2m_record fs) as R. unfold wp in R. rewrite E in R.
  destruct (R Hv) as (pool & server & app & rq_server & rq_client & rq_domain
                      & o_domain & pool_id & doc & _ & _ & S & A & _ & _ & _ & _ & _
                      & DS & Q & Sc & _ & _ & F).
  exists rq_server, server, rq_client, app, doc.
  split; [exact S|]. split; [exact A|]. split; [exact DS|]. split; [exact Q|].
  split; [rewrite F; apply lookup_insert_eq | exact Sc].
Qed.

End Facts.

Section Instances.
Import Demo.

(** With a profile that does not exist, [create_m2m_pool] raises what
    [boto3.client] raised; run as a program, the script prints its start
    banner and exits with status 1. *)
Example missing_profile_run :
  create_m2m_pool no_session_env (start no_files) = (Err profile_not_found, start no_files)
  /\ exit_status (fst (main no_session_env (start no_files))) = 1
  /\ stdout (snd (main no_session_env (start no_files))) = [start_banner].
Proof. vm_compute. repeat split; reflexivity. Qed.

Lemma m2m_writes_only_its_files_witness :
  files (snd (create_m2m_pool plain_env
                (start (<[ "pool.json" := Truncated ]> (<[ "notes.json" := Json VNone ]> ∅)))))
    !! "notes.json"
  = Some (Json VNone).
Proof.
  assert (N : ~ In "notes.json" written_files).
  { simpl. intros [N|[N|[N|[N|[]]]]]; discriminate N. }
  exact (m2m_writes_only_its_files plain_env
           (<[ "pool.json" := Truncated ]> (<[ "notes.json" := Json VNone ]> ∅))
           "notes.json" N).
Defined.

Lemma m2m_untolerated_failure_ends_run_witness :
  fst (create_m2m_pool
         (env_of ∅ (Ok None)
            (failing "create_resource_server" "InvalidParameterException" "Invalid scope"))
         (start no_files))
  = Ok VNone.
Proof.
  assert (Hin : In ({| via := m2m_client;
                       op := "create_resource_server";
                       kwargs := [("UserPoolId", VStr "us-west-2_Ab12Cd34E");
                                  ("Identifier", VStr "https://api.myapp.com");
                                  ("Name", VStr "MyApp API");
                                  ("Scopes",
                                   VList [VDict [("ScopeName", VStr "read");
                                                 ("ScopeDescription",
                                                  VStr "Read access to API resources")];
                                          VDict [("ScopeName", VStr "write");
                                                 ("ScopeDescription",
                                                  VStr "Write access to API resources")];
                                          VDict [("ScopeName", VStr "admin");
                                                 ("ScopeDescription",
                                                  VStr "Administrative access to API resources")]])] |},
                     Err (ClientError "InvalidParameterException" "Invalid scope"))
                  (calls (snd (create_m2m_pool
                                 (env_of ∅ (Ok None)
                                    (failing "create_resource_server"
                                       "InvalidParameterException" "Invalid scope"))
                                 (start no_files))))).
  { vm_compute. right. left. reflexivity. }
  exact (proj1 (m2m_untolerated_failure_ends_run _ no_files _ _ Hin eq_refl)).
Defined.

Lemma raw_responses_persisted_witness :
  exists doc,
    files (snd (create_m2m_pool domain_collision_env (start no_files))) !! "pool.json"
    = Some (Json doc)
    /\ serialisable doc = true.
Proof.
  assert (E : exists v, fst (create_m2m_pool domain_collision_env (start no_files)) = Ok v
                        /\ v <> VNone).
  { eexists. split; [vm_compute; reflexivity | discriminate]. }
  destruct E as (v & E & Hv).
  destruct (raw_responses_persisted domain_collision_env no_files v E Hv
              "create_user_pool" "pool.json" (or_introl eq_refl))
    as (response & doc & _ & F & _ & S & _).
  exists doc. split; [exact F | exact S].
Defined.

Lemma domain_name_of_record_witness :
  exists v suffix,
    fst (create_m2m_pool plain_env (start no_files)) = Ok v
    /\ getitem v "domain_name" = Ok (VStr ("m2m-domain-" ++ suffix))
    /\ String.length suffix = 5%nat.
Proof.
  assert (E : exists v, fst (create_m2m_pool plain_env (start no_files)) = Ok v
                        /\ v <> VNone).
  { eexists. split; [vm_compute; reflexivity | discriminate]. }
  destruct E as (v & E & Hv).
  destruct (domain_name_of_record plain_env no_files v E Hv)
    as (rq & o & before & suffix & _ & _ & G & _ & L).
  exists v, suffix. split; [exact E|]. split; [exact G|].
  rewrite L. vm_compute. reflexivity.
Defined.

Lemma pool_id_threaded_witness :
  exists v pool_id doc,
    fst (create_m2m_pool existing_user_env (start no_files)) = Ok v
    /\ getitem v "pool_id" = Ok pool_id
    /\ files (snd (create_m2m_pool existing_user_env (start no_files)))
         !! "m2m_credentials.json" = Some (Json doc)
    /\ getitem doc "userPoolId" = Ok pool_id.
Proof.
  assert (E : exists v, fst (create_m2m_pool existing_user_env (start no_files)) = Ok v
                        /\ v <> VNone).
  { eexists. split; [vm_compute; reflexivity | discriminate]. }
  destruct E as (v & E & Hv).
  destruct (pool_id_threaded existing_user_env no_files v E Hv)
    as (pool & pool_id & doc & _ & _ & _ & G & F & DU & _).
  exists v, pool_id, doc.
  split; [exact E|]. split; [exact G|]. split; [exact F | exact DU].
Defined.

Lemma client_scopes_are_declared_witness :
  exists rq_client app doc,
    entries "create_user_pool_client"
      (calls (snd (create_m2m_pool plain_env (start no_files))))
    = [(rq_client, Ok app)]
    /\ files (snd (create_m2m_pool plain_env (start no_files))) !! "m2m_credentials.json"
       = Some (Json doc)
    /\ getitem doc "scopes" = Ok (kwarg "AllowedOAuthScopes" rq_client).
Proof.
  assert (E : exists v, fst (create_m2m_pool plain_env (start no_files)) = Ok v
                        /\ v <> VNone).
  { eexists. split; [vm_compute; reflexivity | discriminate]. }
  destruct E as (v & E & Hv).
  destruct (client_scopes_are_declared plain_env no_files v E Hv)
    as (rq_server & server & rq_client & app & doc & _ & A & _ & _ & F & Sc).
  exists rq_client, app, doc. split; [exact A|]. split; [exact F | exact Sc].
Defined.

End Instances.

End M2MMore.
